(** * SafeStreet-LA: the client script [script.js]

  A shallow embedding of the three listeners that [script.js] attaches
  once the document is loaded, and the properties of them that the
  specification states:

  - the panel switcher (click on one of the [.action-btn] buttons),
  - the report submitter (submit of [#form-report]),
  - the recent hazards fetcher (submit of [#form-recent]).

  Strings are byte strings holding UTF-8; a surrogate that stands alone
  in a string of the script, which UTF-8 proper cannot hold, is kept as
  the three bytes its code point would take (ED, then A0 to BF, then a
  continuation byte).  An [async] listener is cut at its [await]s: the
  part that runs up to the request, and the part that runs once the
  request has settled, on the document as it is then. *)

From Stdlib Require Import Ascii.
From stdpp Require Import base strings list.

Local Open Scope string_scope.

(** ** Class lists

  [Element.classList] is an ordered set of tokens. *)

Module DOMTokenList.

Definition contains (tok : string) (cl : list string) : bool :=
  bool_decide (tok ∈ cl).

Definition add (tok : string) (cl : list string) : list string :=
  if contains tok cl then cl else cl ++ [tok].

Definition remove (tok : string) (cl : list string) : list string :=
  filter (λ t, t ≠ tok) cl.

End DOMTokenList.

(** ** The panel switcher

  The document is a store of elements; a node is its index in the store.
  The listener keeps the nodes it looked up when the document was loaded
  and mutates the class lists of those nodes in place. *)

Module Panel.

Record Element := mkElement {
  el_id : option string;            (* the id attribute *)
  el_data_section : option string;  (* the data-section attribute *)
  classList : list string
}.

Abbreviation Document := (list Element).
Abbreviation Node := nat.

Definition set_classList (f : list string → list string) (e : Element) : Element :=
  {| el_id := el_id e; el_data_section := el_data_section e;
     classList := f (classList e) |}.

(** [document.getElementById(i)]: the first node with that id, or null. *)
Definition getElementById (i : string) (d : Document) : option Node :=
  fst <$> list_find (λ e, el_id e = Some i) d.

(** [n.getAttribute("data-section")], null when the attribute is absent. *)
Definition getAttribute_data_section (n : Node) (d : Document) : option string :=
  d !! n ≫= el_data_section.

Definition classList_add (n : Node) (tok : string) (d : Document) : Document :=
  alter (set_classList (DOMTokenList.add tok)) n d.

Definition classList_remove (n : Node) (tok : string) (d : Document) : Document :=
  alter (set_classList (DOMTokenList.remove tok)) n d.

Definition classList_contains (n : Node) (tok : string) (d : Document) : bool :=
  match d !! n with
  | Some e => DOMTokenList.contains tok (classList e)
  | None => false
  end.

(** [document.querySelectorAll("." + c)]: the nodes of class [c], in
    document order. *)
Definition querySelectorAll_class (c : string) (d : Document) : list Node :=
  filter (λ i, classList_contains i c d = true) (seq 0 (length d)).

(** What the [DOMContentLoaded] listener captures (lines 5-10). *)
Record Captured := mkCaptured {
  actionButtons : list Node;
  sections : list (string * option Node)   (* Object.entries(sections) *)
}.

Definition init (d : Document) : Captured :=
  {| actionButtons := querySelectorAll_class "action-btn" d;
     sections := [ ("report", getElementById "section-report" d);
                   ("recent", getElementById "section-recent" d);
                   ("predict", getElementById "section-predict" d) ] |}.

Definition panel_names : list string := ["report"; "recent"; "predict"].

(** How a listener ends: normally, or by the TypeError of reading
    [classList] of null. *)
Inductive Completion := Normal | TypeError.

(** Lines 21-27, over the entries still to visit. *)
Fixpoint toggle_sections (target : option string)
    (entries : list (string * option Node)) (d : Document)
    : Document * Completion :=
  match entries with
  | [] => (d, Normal)
  | (key, sectionEl) :: rest =>
      match sectionEl with
      | None => (d, TypeError)
      | Some el =>
          toggle_sections target rest
            (if bool_decide (Some key = target)
             then classList_add el "active" d
             else classList_remove el "active" d)
      end
  end.

(** Line 17. *)
Definition clear_buttons (bs : list Node) (d : Document) : Document :=
  foldl (λ acc b, classList_remove b "active" acc) d bs.

(** The click listener of button [btn] (lines 13-28). *)
Definition click (c : Captured) (btn : Node) (d : Document)
    : Document * Completion :=
  let target := getAttribute_data_section btn d in
  let d1 := clear_buttons (actionButtons c) d in
  let d2 := classList_add btn "active" d1 in
  toggle_sections target (sections c) d2.

(** The document has the three panels, and no panel is itself one of the
    action buttons. *)
Definition panels_apart (c : Captured) : bool :=
  forallb (λ kh, match kh.2 with
                 | Some el => bool_decide (el ∉ actionButtons c)
                 | None => false
                 end) (sections c).

Definition active_buttons (c : Captured) (d : Document) : list Node :=
  filter (λ b, classList_contains b "active" d = true) (actionButtons c).

Definition entry_active (d : Document) (kh : string * option Node) : bool :=
  match kh.2 with
  | Some el => classList_contains el "active" d
  | None => false
  end.

Definition active_panels (c : Captured) (d : Document)
    : list (string * option Node) :=
  filter (λ kh, entry_active d kh = true) (sections c).

(** *** Sample documents *)

(** A page with three buttons and three panels, the report panel showing. *)
Definition page : Document :=
  [ mkElement None (Some "report") ["action-btn"; "active"];
    mkElement None (Some "recent") ["action-btn"];
    mkElement None (Some "predict") ["action-btn"];
    mkElement (Some "section-report") None ["card"; "active"];
    mkElement (Some "section-recent") None ["card"];
    mkElement (Some "section-predict") None ["card"] ].

(** The same page with a fourth button that names no panel. *)
Definition page_stray : Document :=
  page ++ [ mkElement None (Some "settings") ["action-btn"] ].

(** A page whose recent panel is also an action button, for the report
    panel. *)
Definition page_merged : Document :=
  [ mkElement None (Some "recent") ["action-btn"];
    mkElement (Some "section-report") None ["card"; "active"];
    mkElement (Some "section-recent") (Some "report") ["card"; "action-btn"];
    mkElement (Some "section-predict") None ["card"] ].

(** *** Runs of clicks *)

(** The store after clicks on the buttons [bs], one after the other. *)
Definition clicks (c : Captured) (bs : list Node) (d : Document) : Document :=
  foldl (λ acc b, (click c b acc).1) d bs.

(** Two states of an element that differ at most in whether the class list
    has [active]. *)
Definition same_but_active (e e' : Element) : Prop :=
  el_id e' = el_id e
  ∧ el_data_section e' = el_data_section e
  ∧ DOMTokenList.remove "active" (classList e')
    = DOMTokenList.remove "active" (classList e).

(** A page with a heading and a footer around the buttons and panels; the
    first button starts with [active] in front of its other class. *)
Definition page_framed : Document :=
  [ mkElement (Some "title") None ["active"; "banner"];
    mkElement None (Some "report") ["active"; "action-btn"];
    mkElement None (Some "recent") ["action-btn"];
    mkElement None (Some "predict") ["action-btn"];
    mkElement (Some "section-report") None ["card"; "active"];
    mkElement (Some "section-recent") None ["card"];
    mkElement (Some "section-predict") None ["card"];
    mkElement (Some "footer") None [] ].

End Panel.

(** ** The values the script handles

    What [response.json()] yields is a JSON value.  A number is kept as
    the string that [ToString] gives for it; the script only prints
    numbers and tests them for truth, and a parsed number is falsy exactly
    when it prints as 0.  An object is kept as its members in order of
    appearance; a later member shadows an earlier one of the same key. *)

Module Js.

Set Warnings "-register-all".

Inductive JSON :=
| JNull
| JBool (b : bool)
| JNum (repr : string)
| JStr (s : string)
| JArr (items : list JSON)
| JObj (members : list (string * JSON)).

(** A value read from a property: [None] is [undefined]. *)
Abbreviation Value := (option JSON).

(** A read that may throw a TypeError. *)
Inductive Read (A : Type) :=
| Got (a : A)
| TypeError.
Arguments Got {A} a.
Arguments TypeError {A}.

Definition bind {A B} (r : Read A) (k : A → Read B) : Read B :=
  match r with
  | Got a => k a
  | TypeError => TypeError
  end.

Fixpoint own (k : string) (members : list (string * JSON)) : Value :=
  match members with
  | [] => None
  | (k', v) :: rest =>
      match own k rest with
      | Some later => Some later
      | None => if String.eqb k' k then Some v else None
      end
  end.

(** [v.k], for the property names the script reads ([error], [hazards]
    and the fields of a hazard record): none of them is a property of a
    prototype, so a value that is not an object has none of them, and
    reading one off [null] throws. *)
Definition get (k : string) (v : JSON) : Read Value :=
  match v with
  | JNull => TypeError
  | JObj members => Got (own k members)
  | _ => Got None
  end.

(** [ToBoolean]. *)
Definition truthy (v : Value) : bool :=
  match v with
  | None => false
  | Some JNull => false
  | Some (JBool b) => b
  | Some (JNum repr) => negb (String.eqb repr "0" || String.eqb repr "NaN")
  | Some (JStr s) => negb (String.eqb s "")
  | Some (JArr _) => true
  | Some (JObj _) => true
  end.

(** The string that [ToString] gives for a value when it gives one (see
    [ToString] below for when it throws). *)
Fixpoint to_string (v : JSON) : string :=
  match v with
  | JNull => "null"
  | JBool true => "true"
  | JBool false => "false"
  | JNum repr => repr
  | JStr s => s
  | JArr items =>
      let item x := match x with JNull => "" | _ => to_string x end in
      (fix join (l : list JSON) : string :=
         match l with
         | [] => ""
         | [x] => item x
         | x :: rest => item x ++ "," ++ join rest
         end) items
  | JObj _ => "[object Object]"
  end.

Definition to_string_value (v : Value) : string :=
  match v with
  | None => "undefined"
  | Some j => to_string j
  end.

(** An object with a member named [toString] of its own cannot be turned
    into a string: the member hides the method of the prototype and,
    coming from JSON, cannot be called, and [valueOf] gives back the
    object.  Nor can an array that holds such an object, since [join]
    converts its items in turn. *)
Fixpoint unprintable (v : JSON) : bool :=
  match v with
  | JObj members =>
      match own "toString" members with
      | Some _ => true
      | None => false
      end
  | JArr items =>
      (fix some (l : list JSON) : bool :=
         match l with
         | [] => false
         | x :: rest => unprintable x || some rest
         end) items
  | _ => false
  end.

Definition printable (v : Value) : bool :=
  match v with
  | None => true
  | Some j => negb (unprintable j)
  end.

(** [ToString], as the [+] of line 59 and the template literals of lines
    100-103 apply it, and [ToPrimitive] in the comparison of line 93: it
    throws a TypeError on a value that cannot be turned into a string. *)
Definition ToString (v : Value) : Read string :=
  if printable v then Got (to_string_value v) else TypeError.

(** *** Characters *)

Definition byte (n : nat) : string := String (ascii_of_nat n) EmptyString.

Definition dquote : string := byte 34.

Definition hex_digit (upper : bool) (n : nat) : string :=
  if (n <? 10)%nat then byte (48 + n)
  else byte ((if upper then 55 else 87) + n).

Definition hex_byte (upper : bool) (n : nat) : string :=
  hex_digit upper (n / 16) ++ hex_digit upper (n mod 16).

(** *** [JSON.stringify] *)

Definition escape_char (a : ascii) : string :=
  let n := nat_of_ascii a in
  if (n =? 8)%nat then "\b"
  else if (n =? 9)%nat then "\t"
  else if (n =? 10)%nat then "\n"
  else if (n =? 12)%nat then "\f"
  else if (n =? 13)%nat then "\r"
  else if (n =? 34)%nat then "\" ++ dquote
  else if (n =? 92)%nat then "\\"
  else if (n <? 32)%nat then "\u00" ++ hex_byte false n
  else String a EmptyString.

(** The first two bytes of a surrogate that stands alone. *)
Definition surrogate_lead (a b : nat) : bool :=
  ((a =? 237) && (160 <=? b) && (b <=? 191))%nat.

(** A lone surrogate is written as its escape, the four hexadecimal digits
    of the code unit D800 to DFFF that the three bytes stand for. *)
Fixpoint escape (s : string) : string :=
  match s with
  | EmptyString => EmptyString
  | String a rest =>
      match rest with
      | String b (String c rest3) =>
          if surrogate_lead (nat_of_ascii a) (nat_of_ascii b) then
            let low := ((nat_of_ascii b - 128) * 64 + (nat_of_ascii c - 128))%nat in
            "\ud" ++ hex_digit false (low / 256) ++ hex_byte false (low mod 256)
            ++ escape rest3
          else escape_char a ++ escape rest
      | _ => escape_char a ++ escape rest
      end
  end.

Definition quote (s : string) : string := dquote ++ escape s ++ dquote.

(** For an object whose keys are distinct and are not array indices, which
    is what an object literal with such keys builds. *)
Fixpoint stringify (v : JSON) : string :=
  match v with
  | JNull => "null"
  | JBool true => "true"
  | JBool false => "false"
  | JNum repr =>
      if String.eqb repr "Infinity" || String.eqb repr "-Infinity"
         || String.eqb repr "NaN"
      then "null" else repr
  | JStr s => quote s
  | JArr items =>
      "[" ++ (fix join (l : list JSON) : string :=
                match l with
                | [] => ""
                | [x] => stringify x
                | x :: rest => stringify x ++ "," ++ join rest
                end) items ++ "]"
  | JObj members =>
      "{" ++ (fix join (l : list (string * JSON)) : string :=
                match l with
                | [] => ""
                | [(k, x)] => quote k ++ ":" ++ stringify x
                | (k, x) :: rest => quote k ++ ":" ++ stringify x ++ "," ++ join rest
                end) members ++ "}"
  end.

(** *** [String.prototype.trim]

    White space and line terminators, as their UTF-8 bytes: the six of
    ASCII, U+00A0, and the three-byte ones U+1680, U+2000 to U+200A,
    U+2028, U+2029, U+202F, U+205F, U+3000 and U+FEFF. *)

Definition white1 (a : nat) : bool :=
  ((9 <=? a) && (a <=? 13) || (a =? 32))%nat.

Definition white2 (a b : nat) : bool :=
  ((a =? 194) && (b =? 160))%nat.

Definition white3 (a b c : nat) : bool :=
  ((a =? 225) && (b =? 154) && (c =? 128)
   || (a =? 226) && (b =? 128)
      && ((128 <=? c) && (c <=? 138) || (c =? 168) || (c =? 169) || (c =? 175))
   || (a =? 226) && (b =? 129) && (c =? 159)
   || (a =? 227) && (b =? 128) && (c =? 128)
   || (a =? 239) && (b =? 187) && (c =? 191))%nat.

(** Drops the white space at the front; with [back] the string is read
    from its end, so that the bytes of a character come last first. *)
Fixpoint drop_white (back : bool) (s : string) : string :=
  match s with
  | EmptyString => EmptyString
  | String a r1 =>
      if white1 (nat_of_ascii a) then drop_white back r1
      else
        match r1 with
        | EmptyString => s
        | String b r2 =>
            if (if back then white2 (nat_of_ascii b) (nat_of_ascii a)
                else white2 (nat_of_ascii a) (nat_of_ascii b))
            then drop_white back r2
            else
              match r2 with
              | EmptyString => s
              | String c r3 =>
                  if (if back
                      then white3 (nat_of_ascii c) (nat_of_ascii b) (nat_of_ascii a)
                      else white3 (nat_of_ascii a) (nat_of_ascii b) (nat_of_ascii c))
                  then drop_white back r3
                  else s
              end
        end
  end.

Definition trim (s : string) : string :=
  String.rev (drop_white true (String.rev (drop_white false s))).

(** *** [encodeURIComponent], on the UTF-8 bytes *)

Definition unreserved (n : nat) : bool :=
  ((48 <=? n) && (n <=? 57) || (65 <=? n) && (n <=? 90)
   || (97 <=? n) && (n <=? 122)
   || (n =? 45) || (n =? 95) || (n =? 46) || (n =? 33) || (n =? 126)
   || (n =? 42) || (n =? 39) || (n =? 40) || (n =? 41))%nat.

(** Each byte that is not left as it is becomes a percent sign and its two
    hexadecimal digits. *)
Fixpoint percent_encode (s : string) : string :=
  match s with
  | EmptyString => EmptyString
  | String a rest =>
      (if unreserved (nat_of_ascii a) then String a EmptyString
       else "%" ++ hex_byte true (nat_of_ascii a))
      ++ percent_encode rest
  end.

(** The string has a surrogate that stands alone. *)
Fixpoint lone_surrogate (s : string) : bool :=
  match s with
  | EmptyString => false
  | String a rest =>
      match rest with
      | EmptyString => false
      | String b _ =>
          surrogate_lead (nat_of_ascii a) (nat_of_ascii b) || lone_surrogate rest
      end
  end.

(** [None] stands for the URIError that the function throws on a string
    with a lone surrogate. *)
Definition encodeURIComponent (s : string) : option string :=
  if lone_surrogate s then None else Some (percent_encode s).

(** *** [fetch] *)

Record Request := mkRequest {
  url : string;
  method : string;
  headers : list (string * string);
  body : option string
}.

(** How [response.json()] settles. *)
Inductive Body :=
| NotJson
| Json (data : JSON).

(** How the request settles: [fetch] rejects, or a response arrives with
    its [ok] flag and its body. *)
Inductive Fetched :=
| Rejected
| Responded (ok : bool) (content : Body).


(** *** Kinds of text *)

Fixpoint string_forall (P : ascii → bool) (s : string) : bool :=
  match s with
  | EmptyString => true
  | String a rest => P a && string_forall P rest
  end.

Fixpoint string_exists (P : ascii → bool) (s : string) : bool :=
  match s with
  | EmptyString => false
  | String a rest => P a || string_exists P rest
  end.

(** A space, tab or line break of ASCII. *)
Definition blank (a : ascii) : bool := white1 (nat_of_ascii a).

(** A printing character of ASCII other than the space. *)
Definition visible (a : ascii) : bool :=
  ((33 <=? nat_of_ascii a) && (nat_of_ascii a <=? 126))%nat.

Definition starts_visible (s : string) : bool :=
  match s with
  | EmptyString => false
  | String a _ => visible a
  end.

(** What a component of a URI is made of once encoded: the characters that
    are left as they are, and the percent sign. *)
Definition uri_char (a : ascii) : bool :=
  unreserved (nat_of_ascii a) || (nat_of_ascii a =? 37)%nat.

End Js.

(** ** The report submitter

    The page as the listener of [#form-report] sees it: the six controls,
    which belong to the form, each with its current and its default
    state, and the status line [#submit-status].  The elements the
    listener looks up by id are there; having different ids, they are
    different elements, so each is a field of its own. *)

Module Report.
Import Js.

Record Control := mkControl {
  value : string;
  defaultValue : string
}.

Record Checkbox := mkCheckbox {
  checked : bool;
  defaultChecked : bool
}.

Record Status := mkStatus {
  textContent : string;
  classList : list string
}.

Record Page := mkPage {
  location_name : Control;
  hazard_type : Control;
  accessibility : Control;
  user_type : Control;
  temporary : Checkbox;
  description : Control;
  submitStatus : Status
}.

(** The controls of the form, without the status line. *)
Definition controls (p : Page)
    : Control * Control * Control * Control * Checkbox * Control :=
  (location_name p, hazard_type p, accessibility p, user_type p,
   temporary p, description p).

Definition with_status (st : Status) (p : Page) : Page :=
  {| location_name := location_name p; hazard_type := hazard_type p;
     accessibility := accessibility p; user_type := user_type p;
     temporary := temporary p; description := description p;
     submitStatus := st |}.

(** Lines 40-47. *)
Definition payload (p : Page) : JSON :=
  JObj [ ("location_name", JStr (trim (value (location_name p))));
         ("hazard_type", JStr (trim (value (hazard_type p))));
         ("accessibility", JStr (value (accessibility p)));
         ("user_type", JStr (value (user_type p)));
         ("temporary", JBool (checked (temporary p)));
         ("description", JStr (trim (value (description p)))) ].

(** The listener up to [await fetch(...)] (lines 36-54): the page it
    leaves and the request it sends. *)
Definition submit_start (p : Page) : Page * Request :=
  let p1 := with_status {| textContent := "Submitting..."; classList := ["status"] |} p in
  (p1, {| url := "/api/report";
          method := "POST";
          headers := [("Content-Type", "application/json")];
          body := Some (stringify (payload p1)) |}).

Definition success_message : string :=
  "Thank you! Your report has been saved and will help train the model.".

Definition network_error_message : string := "Network error submitting hazard.".

(** The text that line 59 builds when it builds one:
    ["Error: " + (data.error || "Failed to submit")]. *)
Definition server_error_message (error : Value) : string :=
  "Error: " ++ (if truthy error then to_string_value error else "Failed to submit").

(** Line 59 as it runs: the [+] turns its right operand into a string,
    which throws for an error field that cannot be turned into one. *)
Definition server_error_text (error : Value) : Read string :=
  bind (ToString (if truthy error then error else Some (JStr "Failed to submit")))
    (λ text, Got ("Error: " ++ text)).

Definition show (text class : string) (p : Page) : Page :=
  with_status {| textContent := text;
                 classList := DOMTokenList.add class (classList (submitStatus p)) |} p.

Definition reset_control (c : Control) : Control :=
  {| value := defaultValue c; defaultValue := defaultValue c |}.

Definition reset_checkbox (c : Checkbox) : Checkbox :=
  {| checked := defaultChecked c; defaultChecked := defaultChecked c |}.

(** [formReport.reset()]. *)
Definition reset (p : Page) : Page :=
  {| location_name := reset_control (location_name p);
     hazard_type := reset_control (hazard_type p);
     accessibility := reset_control (accessibility p);
     user_type := reset_control (user_type p);
     temporary := reset_checkbox (temporary p);
     description := reset_control (description p);
     submitStatus := submitStatus p |}.

(** Line 65. *)
Definition check_temporary (p : Page) : Page :=
  {| location_name := location_name p; hazard_type := hazard_type p;
     accessibility := accessibility p; user_type := user_type p;
     temporary := {| checked := true;
                     defaultChecked := defaultChecked (temporary p) |};
     description := description p;
     submitStatus := submitStatus p |}.

(** How the [try] block ends, with the page at that point. *)
Inductive Outcome :=
| Completed (p : Page)
| Thrown (p : Page).

(** Lines 50-66, from the point where the request has settled. *)
Definition try_block (f : Fetched) (p : Page) : Outcome :=
  match f with
  | Rejected => Thrown p
  | Responded ok NotJson => Thrown p
  | Responded ok (Json data) =>
      if negb ok then
        match get "error" data with
        | TypeError => Thrown p
        | Got error =>
            match server_error_text error with
            | TypeError => Thrown p
            | Got text => Completed (show text "error" p)
            end
        end
      else
        Completed (check_temporary (reset (show success_message "success" p)))
  end.

(** Lines 67-70. *)
Definition catch_block (p : Page) : Page := show network_error_message "error" p.

(** The listener once the request has settled, on the page as it is then. *)
Definition submit_finish (f : Fetched) (p : Page) : Page :=
  match try_block f p with
  | Completed p' => p'
  | Thrown p' => catch_block p'
  end.

(** The text of a server error as the specification words it: made of the
    error field when the body has one, the generic text when it has none. *)
Definition stated_error_text (data : JSON) : string :=
  match get "error" data with
  | Got (Some error) => "Error: " ++ to_string error
  | _ => "Error: Failed to submit"
  end.

(** *** Sample pages *)

Definition blank_control : Control := {| value := ""; defaultValue := "" |}.

Definition filled (s : string) : Control := {| value := s; defaultValue := "" |}.

Definition sample : Page :=
  {| location_name := filled "  Elm St ";
     hazard_type := filled "pothole";
     accessibility := {| value := "3"; defaultValue := "3" |};
     user_type := {| value := "pedestrian"; defaultValue := "pedestrian" |};
     temporary := {| checked := false; defaultChecked := true |};
     description := filled "deep, near the crossing";
     submitStatus := {| textContent := "Submitting..."; classList := ["status"] |} |}.

(** The three fields that lines 41, 42 and 46 trim, each with the text
    its control holds. *)
Definition trimmed_fields (p : Page) : list (string * string) :=
  [ ("location_name", value (location_name p));
    ("hazard_type", value (hazard_type p));
    ("description", value (description p)) ].

(** *** A whole submission *)

(** A submission that no other event interleaves with: the request settles
    on the page as the first part of the listener left it. *)
Definition submit (f : Fetched) (p : Page) : Page :=
  submit_finish f (submit_start p).1.

(** A page whose status line still carries the classes of an earlier,
    failed submission. *)
Definition sample_after_failure : Page :=
  with_status {| textContent := network_error_message;
                 classList := ["status"; "error"] |} sample.

End Report.

(** ** The recent hazards fetcher

    The page as the listener of [#form-recent] sees it: the location
    input and the children of the results region [#hazard-results], both
    of them there.  A list item is kept as the markup the listener gives
    it; what the browser parses that markup into is not modelled. *)

Module Recent.
Import Js.

Record LI := mkLI {
  innerHTML : string
}.

Record UL := mkUL {
  className : string;
  items : list LI
}.

Inductive Node :=
| TextNode (text : string)
| ListNode (list : UL).

Record Page := mkPage {
  check_location : string;       (* the value of #check-location *)
  hazardResults : list Node      (* the children of #hazard-results *)
}.

Definition with_results (nodes : list Node) (p : Page) : Page :=
  {| check_location := check_location p; hazardResults := nodes |}.

(** [hazardResults.textContent = text], for a text that is not empty. *)
Definition set_textContent (text : string) (p : Page) : Page :=
  with_results [TextNode text] p.

(** [hazardResults.appendChild(list)]. *)
Definition appendChild (list : UL) (p : Page) : Page :=
  with_results (hazardResults p ++ [ListNode list]) p.

Definition loading_message : string := "Loading recent hazards...".
Definition prompt_message : string := "Please enter a location.".
Definition no_hazards_message : string := "No recent hazards for this location.".
Definition fetch_error_message : string := "Error fetching hazards.".

(** The listener up to [await fetch(...)] (lines 78-88): the page it leaves
    and the request it sends, if it sends one. *)
Definition submit_start (p : Page) : Page * option Request :=
  let p1 := set_textContent loading_message p in
  let location := trim (check_location p1) in
  if String.eqb location "" then (set_textContent prompt_message p1, None)
  else
    match encodeURIComponent location with
    | Some query =>
        (p1, Some {| url := "/api/hazards?location=" ++ query;
                     method := "GET"; headers := []; body := None |})
    | None =>
        (* the URIError is thrown inside the try of line 87 *)
        (set_textContent fetch_error_message p1, None)
    end.

(** Lines 98-103: the list item of one record.  Each field is read and
    turned into a string where the template has it. *)
Definition render (h : JSON) : Read LI :=
  bind (get "day" h) (λ day,
  bind (ToString day) (λ day,
  bind (get "timestamp" h) (λ timestamp,
  bind (ToString timestamp) (λ timestamp,
  bind (get "location_name" h) (λ location_name,
  bind (ToString location_name) (λ location_name,
  bind (get "hazard_type" h) (λ hazard_type,
  bind (ToString hazard_type) (λ hazard_type,
  bind (get "accessibility" h) (λ accessibility,
  bind (ToString accessibility) (λ accessibility,
  bind (get "user_type" h) (λ user_type,
  bind (ToString user_type) (λ user_type,
  bind (get "description" h) (λ description,
  bind (if truthy description
        then bind (ToString description)
               (λ description, Got ("<br><em>" ++ description ++ "</em>"))
        else Got "") (λ described,
  Got {| innerHTML :=
    ("<span class=" ++ dquote ++ "pill" ++ dquote ++ "><span class=" ++ dquote
       ++ "dot" ++ dquote ++ "></span>" ++ day ++ " • "
       ++ timestamp ++ "</span><br>")
    ++ ("<strong>" ++ location_name ++ "</strong> – "
       ++ hazard_type ++ " ")
    ++ ("(accessibility: " ++ accessibility ++ "/5, user: "
       ++ user_type ++ ")")
    ++ described |})))))))))))))).

(** Lines 97-105: the items of the list, in the order of the records. *)
Fixpoint render_each (hs : list JSON) : Read (list LI) :=
  match hs with
  | [] => Got []
  | h :: rest =>
      bind (render h) (λ li,
      bind (render_each rest) (λ lis, Got (li :: lis)))
  end.

Definition list_items (nodes : list Node) : list LI :=
  nodes ≫= λ n, match n with TextNode _ => [] | ListNode l => items l end.

Definition negative (repr : string) : bool :=
  match repr with
  | String a _ => (nat_of_ascii a =? 45)%nat
  | EmptyString => false
  end.

Section Runtime.

(** [ToNumber(s) > 0] on a string is left to the runtime. *)
Variable string_gt_zero : string → bool.

(** [v > 0].  An object or an array is first turned into a string, which
    can throw; the string of an object that can be turned into one is no
    number. *)
Definition gt_zero (v : Value) : Read bool :=
  match v with
  | None => Got false
  | Some JNull => Got false
  | Some (JBool b) => Got b
  | Some (JNum repr) => Got (truthy v && negb (negative repr))
  | Some (JStr s) => Got (string_gt_zero s)
  | Some (JArr _) => bind (ToString v) (λ s, Got (string_gt_zero s))
  | Some (JObj _) => bind (ToString v) (λ _, Got false)
  end.

(** [v.length > 0], for a truthy [v]. *)
Definition length_gt_zero (v : Value) : Read bool :=
  match v with
  | Some (JArr items) => Got (negb (bool_decide (items = [])))
  | Some (JStr s) => Got (negb (String.eqb s ""))
  | Some (JObj members) => gt_zero (own "length" members)
  | _ => Got false
  end.

(** How the [try] block ends, with the page at that point. *)
Inductive Outcome :=
| Completed (p : Page)
| Thrown (p : Page).

(** Lines 88-110, from the point where the request has settled. *)
Definition try_block (f : Fetched) (p : Page) : Outcome :=
  match f with
  | Rejected => Thrown p
  | Responded _ NotJson => Thrown p
  | Responded _ (Json data) =>
      let p1 := with_results [] p in
      match get "hazards" data with
      | TypeError => Thrown p1
      | Got hazards =>
          match (if truthy hazards then length_gt_zero hazards else Got false) with
          | TypeError => Thrown p1
          | Got true =>
              match hazards with
              | Some (JArr hs) =>
                  match render_each hs with
                  | Got lis =>
                      Completed (appendChild {| className := "results-list";
                                                items := lis |} p1)
                  | TypeError => Thrown p1
                  end
              | _ => Thrown p1    (* forEach is not a function *)
              end
          | Got false => Completed (set_textContent no_hazards_message p1)
          end
      end
  end.

(** Lines 111-113. *)
Definition catch_block (p : Page) : Page := set_textContent fetch_error_message p.

(** The listener once the request has settled, on the page as it is then. *)
Definition submit_finish (f : Fetched) (p : Page) : Page :=
  match try_block f p with
  | Completed p' => p'
  | Thrown p' => catch_block p'
  end.

End Runtime.

(** [h.k] for a record that is not null. *)
Definition field (k : string) (h : JSON) : Value :=
  match h with
  | JObj members => own k members
  | _ => None
  end.

(** A record that lines 98-103 can print: it is not null, each of the six
    fields that are always printed can be turned into a string, and so can
    the description if it is truthy. *)
Definition renderable (h : JSON) : bool :=
  match h with
  | JNull => false
  | _ =>
      forallb (λ k, printable (field k h))
        ["day"; "timestamp"; "location_name"; "hazard_type"; "accessibility";
         "user_type"]
      && (negb (truthy (field "description" h))
          || printable (field "description" h))
  end.

(** The body as the specification words the case of no hazards: it has no
    hazards field, or an empty hazards array. *)
Definition lacks_hazards (data : JSON) : bool :=
  match data with
  | JObj members =>
      match own "hazards" members with
      | None => true
      | Some (JArr []) => true
      | Some _ => false
      end
  | _ => true
  end.


(** *** Sample data *)

Definition elm_record : JSON :=
  JObj [ ("day", JStr "Mon"); ("timestamp", JStr "10:00");
         ("location_name", JStr "Elm St"); ("hazard_type", JStr "pothole");
         ("accessibility", JNum "3"); ("user_type", JStr "pedestrian") ].


Definition asking (location : string) : Page :=
  {| check_location := location; hazardResults := [TextNode loading_message] |}.

End Recent.

(** * Properties

    ** Strings *)

Lemma append_assoc (s t u : string) : (s ++ t) ++ u = s ++ (t ++ u).
Proof.
  induction s as [|a s IH]; [done|].
  change (String a ((s ++ t) ++ u) = String a (s ++ (t ++ u))).
  by rewrite IH.
Qed.

Lemma append_empty_r (s : string) : s ++ "" = s.
Proof.
  induction s as [|a s IH]; [done|].
  change (String a (s ++ "") = String a s). by rewrite IH.
Qed.




(** ** The panel switcher *)

Section PanelFacts.
Import Panel.

Lemma DOMTokenList_contains_add tok cl :
  DOMTokenList.contains tok (DOMTokenList.add tok cl) = true.
Proof.
  unfold DOMTokenList.add. destruct (DOMTokenList.contains tok cl) eqn:E; [done|].
  apply bool_decide_eq_true, elem_of_app. right.
  by apply list_elem_of_singleton.
Qed.

Lemma DOMTokenList_contains_remove tok cl :
  DOMTokenList.contains tok (DOMTokenList.remove tok cl) = false.
Proof.
  apply bool_decide_eq_false. unfold DOMTokenList.remove.
  rewrite list_elem_of_filter. by intros [? _].
Qed.

(** *** The store under class-list updates *)

Lemma length_classList_add n tok d : length (classList_add n tok d) = length d.
Proof. apply length_alter. Qed.

Lemma length_classList_remove n tok d :
  length (classList_remove n tok d) = length d.
Proof. apply length_alter. Qed.

Lemma contains_remove_same n tok d :
  classList_contains n tok (classList_remove n tok d) = false.
Proof.
  unfold classList_contains, classList_remove.
  rewrite list_lookup_alter_eq. destruct (d !! n) as [e|]; [|done].
  apply DOMTokenList_contains_remove.
Qed.

Lemma contains_remove_other n m tok tok' d :
  n ≠ m →
  classList_contains n tok (classList_remove m tok' d)
  = classList_contains n tok d.
Proof.
  intros Hne. unfold classList_contains, classList_remove.
  by rewrite list_lookup_alter_ne.
Qed.

Lemma contains_add_same n tok d :
  n < length d → classList_contains n tok (classList_add n tok d) = true.
Proof.
  intros Hlt. unfold classList_contains, classList_add.
  rewrite list_lookup_alter_eq.
  destruct (lookup_lt_is_Some_2 d n Hlt) as [e ->]. simpl.
  apply DOMTokenList_contains_add.
Qed.

Lemma contains_add_other n m tok tok' d :
  n ≠ m →
  classList_contains n tok (classList_add m tok' d)
  = classList_contains n tok d.
Proof.
  intros Hne. unfold classList_contains, classList_add.
  by rewrite list_lookup_alter_ne.
Qed.

Lemma attribute_alter_class f m n d :
  getAttribute_data_section n (alter (set_classList f) m d)
  = getAttribute_data_section n d.
Proof.
  unfold getAttribute_data_section.
  destruct (decide (m = n)) as [->|Hne].
  - rewrite list_lookup_alter_eq. by destruct (d !! n).
  - by rewrite list_lookup_alter_ne.
Qed.

(** *** Line 17: every captured button loses [active] *)

Lemma length_clear_buttons bs d : length (clear_buttons bs d) = length d.
Proof.
  revert d. induction bs as [|b bs IH]; intros d; [done|].
  simpl. rewrite IH. apply length_classList_remove.
Qed.

Lemma clear_buttons_outside bs n d :
  n ∉ bs →
  classList_contains n "active" (clear_buttons bs d)
  = classList_contains n "active" d.
Proof.
  revert d. induction bs as [|b bs IH]; intros d Hn; [done|].
  apply not_elem_of_cons in Hn as [Hne Hn]. simpl.
  rewrite IH by done. by apply contains_remove_other.
Qed.

Lemma clear_buttons_keeps_off bs n d :
  classList_contains n "active" d = false →
  classList_contains n "active" (clear_buttons bs d) = false.
Proof.
  revert d. induction bs as [|b bs IH]; intros d Hoff; [done|].
  simpl. apply IH. destruct (decide (n = b)) as [->|Hne].
  - apply contains_remove_same.
  - by rewrite contains_remove_other.
Qed.

Lemma clear_buttons_inside bs n d :
  n ∈ bs → classList_contains n "active" (clear_buttons bs d) = false.
Proof.
  revert d. induction bs as [|b bs IH]; intros d Hin.
  - by apply elem_of_nil in Hin.
  - simpl. destruct (decide (n = b)) as [->|Hne].
    + apply clear_buttons_keeps_off, contains_remove_same.
    + apply IH. apply elem_of_cons in Hin as [?|?]; [done|done].
Qed.

Lemma attribute_clear_buttons bs n d :
  getAttribute_data_section n (clear_buttons bs d)
  = getAttribute_data_section n d.
Proof.
  revert d. induction bs as [|b bs IH]; intros d; [done|].
  simpl. rewrite IH. apply attribute_alter_class.
Qed.

(** *** Lines 21-27: the entry of the target gains [active], the others
    lose it *)

Lemma toggle_sections_spec target entries d :
  Forall (λ kh, ∃ el, kh.2 = Some el ∧ el < length d) entries →
  NoDup (entries.*2) →
  ∃ d', toggle_sections target entries d = (d', Normal)
    ∧ length d' = length d
    ∧ (∀ k el, (k, Some el) ∈ entries →
         classList_contains el "active" d' = bool_decide (Some k = target))
    ∧ (∀ n, Some n ∉ entries.*2 →
         classList_contains n "active" d' = classList_contains n "active" d)
    ∧ (∀ n, getAttribute_data_section n d' = getAttribute_data_section n d).
Proof.
  revert d. induction entries as [|[key sectionEl] rest IH]; intros d Hall Hnd.
  - exists d. repeat split; try done. intros k el Hin.
    by apply elem_of_nil in Hin.
  - apply Forall_cons in Hall as [(el & Hel & Hlt) Hall]. simpl in Hel. subst.
    simpl in Hnd. apply NoDup_cons in Hnd as [Hfresh Hnd].
    set (d1 := if bool_decide (Some key = target)
               then classList_add el "active" d
               else classList_remove el "active" d).
    assert (Hlen1 : length d1 = length d).
    { unfold d1. case_bool_decide;
        [apply length_classList_add | apply length_classList_remove]. }
    assert (Hel1 : classList_contains el "active" d1
                   = bool_decide (Some key = target)).
    { unfold d1. case_bool_decide.
      - by apply contains_add_same.
      - apply contains_remove_same. }
    assert (Hother1 : ∀ n, n ≠ el →
              classList_contains n "active" d1 = classList_contains n "active" d).
    { intros n Hne. unfold d1. case_bool_decide.
      - by apply contains_add_other.
      - by apply contains_remove_other. }
    assert (Hattr1 : ∀ n, getAttribute_data_section n d1
                          = getAttribute_data_section n d).
    { intros n. unfold d1. case_bool_decide; apply attribute_alter_class. }
    destruct (IH d1) as (d' & Hrun & Hlen & Hin & Hout & Hattr); [|done|].
    { rewrite Hlen1. done. }
    exists d'. simpl. fold d1. split; [done|]. split; [congruence|].
    split; [|split].
    + intros k n Hmem. apply elem_of_cons in Hmem as [Heq|Hmem].
      * injection Heq as -> ->. rewrite Hout by done. done.
      * by apply Hin.
    + intros n Hn. apply not_elem_of_cons in Hn as [Hne Hn].
      rewrite Hout by done. apply Hother1. congruence.
    + intros n. by rewrite Hattr.
Qed.

Lemma list_eq_nil_filter_help {A} (P : A → Prop) `{∀ x, Decision (P x)}
    (l : list A) :
  (∀ x, x ∈ l → P x → False) → filter P l = [].
Proof.
  induction l as [|x l IH]; intros HP; [done|].
  rewrite filter_cons_False by (intros HPx; apply (HP x); [left|done]).
  apply IH. intros y Hy. apply HP. by right.
Qed.

(** A filter that keeps one element of a duplicate-free list. *)
Lemma filter_only {A} (P : A → Prop) `{∀ x, Decision (P x)} (l : list A) a :
  NoDup l → a ∈ l → (∀ x, x ∈ l → P x ↔ x = a) → filter P l = [a].
Proof.
  induction l as [|x l IH]; intros Hnd Hin Hiff.
  - by apply elem_of_nil in Hin.
  - apply NoDup_cons in Hnd as [Hx Hnd].
    destruct (decide (P x)) as [HPx|HPx].
    + assert (x = a) as -> by (apply Hiff; [left|done]).
      rewrite filter_cons_True by done. f_equal.
      apply list_eq_nil_filter_help.
      intros y Hy HP. apply Hiff in HP; [|by right]. by subst.
    + assert (x ≠ a) as Hne by (intros ->; apply HPx, Hiff; [left|done]).
      rewrite filter_cons_False by done.
      apply IH; [done| |].
      * apply elem_of_cons in Hin as [?|?]; [by subst|done].
      * intros y Hy. apply Hiff. by right.
Qed.

Lemma filter_none {A} (P : A → Prop) `{∀ x, Decision (P x)} (l : list A) :
  (∀ x, x ∈ l → ¬ P x) → filter P l = [].
Proof. intros HP. by apply list_eq_nil_filter_help; intros y Hy; apply HP. Qed.

(** *** What the lookups at load time return *)

Lemma querySelectorAll_class_NoDup c d : NoDup (querySelectorAll_class c d).
Proof. apply NoDup_filter, NoDup_seq. Qed.

Lemma querySelectorAll_class_lt c d n :
  n ∈ querySelectorAll_class c d → n < length d.
Proof.
  unfold querySelectorAll_class. rewrite list_elem_of_filter, elem_of_seq. lia.
Qed.

Lemma getElementById_Some i d n :
  getElementById i d = Some n → ∃ e, d !! n = Some e ∧ el_id e = Some i.
Proof.
  unfold getElementById. intros Hfind.
  apply fmap_Some in Hfind as ([m e] & Hfind & ->).
  apply list_find_Some in Hfind as (Hlook & Hid & _). eauto.
Qed.

Lemma getElementById_lt i d n : getElementById i d = Some n → n < length d.
Proof.
  intros (e & Hlook & _)%getElementById_Some. by eapply lookup_lt_Some.
Qed.

(** Two different ids never name the same node. *)
Lemma getElementById_apart i j d n m :
  i ≠ j → getElementById i d = Some n → getElementById j d = Some m → n ≠ m.
Proof.
  intros Hij (e & He & Hi)%getElementById_Some
    (e' & He' & Hj)%getElementById_Some ->.
  congruence.
Qed.

Lemma sections_init (d0 d : Document) :
  (length d0 ≤ length d)%nat → panels_apart (init d0) = true →
  ∃ r c p, sections (init d0)
           = [("report", Some r); ("recent", Some c); ("predict", Some p)]
    ∧ NoDup [Some r; Some c; Some p]
    ∧ Forall (λ kh : string * option nat, ∃ el, kh.2 = Some el ∧ el < length d)
        (sections (init d0))
    ∧ Forall (λ el, el ∉ actionButtons (init d0)) [r; c; p].
Proof.
  intros Hlen Hapart. unfold panels_apart in Hapart. simpl in *.
  destruct (getElementById "section-report" d0) as [r|] eqn:Hr; [|done].
  destruct (getElementById "section-recent" d0) as [c|] eqn:Hc;
    [|by rewrite andb_false_r in Hapart].
  destruct (getElementById "section-predict" d0) as [p|] eqn:Hp;
    [|by rewrite !andb_false_r in Hapart].
  simpl in Hapart.
  apply andb_prop in Hapart as [Har Hapart].
  apply andb_prop in Hapart as [Hac Hapart].
  apply andb_prop in Hapart as [Hap _].
  apply bool_decide_eq_true in Har, Hac, Hap.
  pose proof (getElementById_lt _ _ _ Hr).
  pose proof (getElementById_lt _ _ _ Hc).
  pose proof (getElementById_lt _ _ _ Hp).
  assert (r ≠ c) by (by eapply getElementById_apart; [|exact Hr|exact Hc]).
  assert (r ≠ p) by (by eapply getElementById_apart; [|exact Hr|exact Hp]).
  assert (c ≠ p) by (by eapply getElementById_apart; [|exact Hc|exact Hp]).
  exists r, c, p. split; [done|]. split; [|split].
  - repeat (apply NoDup_cons; split);
      rewrite ?elem_of_cons, ?elem_of_nil; try apply NoDup_nil_2; intuition congruence.
  - repeat (apply Forall_cons; split); try apply Forall_nil_2;
      eexists; (split; [done|simpl; lia]).
  - repeat (apply Forall_cons; split); try apply Forall_nil_2; done.
Qed.

(** *** The click listener, for any target *)

Lemma click_spec (d0 d : Document) btn :
  btn ∈ actionButtons (init d0) →
  (length d0 ≤ length d)%nat →
  panels_apart (init d0) = true →
  ∃ d', click (init d0) btn d = (d', Normal)
    ∧ active_buttons (init d0) d' = [btn]
    ∧ (∀ k el, (k, Some el) ∈ sections (init d0) →
         classList_contains el "active" d'
         = bool_decide (Some k = getAttribute_data_section btn d))
    ∧ getAttribute_data_section btn d' = getAttribute_data_section btn d.
Proof.
  intros Hbtn Hlen Hapart.
  destruct (sections_init d0 d Hlen Hapart) as (r & c & p & Hsec & Hnd & Hall & Hout).
  set (cap := init d0) in *.
  set (d1 := clear_buttons (actionButtons cap) d).
  set (d2 := classList_add btn "active" d1).
  assert (Hbtn_lt : btn < length d1).
  { unfold d1. rewrite length_clear_buttons.
    apply querySelectorAll_class_lt in Hbtn. lia. }
  assert (Hlen2 : length d2 = length d).
  { unfold d2, d1. by rewrite length_classList_add, length_clear_buttons. }
  destruct (toggle_sections_spec (getAttribute_data_section btn d)
              (sections cap) d2) as (d' & Hrun & _ & Hin & Hkeep & Hattr).
  { by rewrite Hlen2. }
  { by rewrite Hsec. }
  exists d'. split; [exact Hrun|]. split; [|split].
  - unfold active_buttons. apply filter_only.
    + apply querySelectorAll_class_NoDup.
    + done.
    + intros b Hb.
      assert (Hb_out : Some b ∉ (sections cap).*2).
      { rewrite Hsec. simpl. rewrite !elem_of_cons, elem_of_nil.
        apply Forall_cons in Hout as [? Hout].
        apply Forall_cons in Hout as [? Hout].
        apply Forall_cons in Hout as [? _].
        intros [?|[?|[?|[]]]]; simplify_eq; done. }
      rewrite Hkeep by done. unfold d2.
      destruct (decide (b = btn)) as [->|Hne].
      * by rewrite contains_add_same.
      * rewrite contains_add_other by done. unfold d1.
        rewrite clear_buttons_inside by done. naive_solver.
  - exact Hin.
  - rewrite Hattr. unfold d2, d1, classList_add.
    by rewrite attribute_alter_class, attribute_clear_buttons.
Qed.


(** *** The claims on the panel switcher *)

(** C1.  A click on a captured button whose data-section attribute is one of
    report, recent, predict ends normally and leaves exactly one captured
    button with the class active, the clicked one, its attribute unchanged,
    and exactly one panel with the class active, the one captured under that
    name.  The document is one that has the three panels, none of them an
    action button, and the click happens on a store that still has the nodes
    of the load-time document. *)
Theorem click_known_target (d0 d : Document) (btn : Node) (t : string) :
  btn ∈ actionButtons (init d0) →
  (length d0 ≤ length d)%nat →
  panels_apart (init d0) = true →
  getAttribute_data_section btn d = Some t →
  t ∈ panel_names →
  ∃ d' panel,
    click (init d0) btn d = (d', Normal)
    ∧ active_buttons (init d0) d' = [btn]
    ∧ getAttribute_data_section btn d' = Some t
    ∧ (t, Some panel) ∈ sections (init d0)
    ∧ active_panels (init d0) d' = [(t, Some panel)].
Proof.
  intros Hbtn Hlen Hapart Htarget Hname.
  destruct (click_spec d0 d btn Hbtn Hlen Hapart)
    as (d' & Hrun & Hbuttons & Hpanels & Hattr).
  destruct (sections_init d0 d Hlen Hapart) as (r & c & p & Hsec & Hnd & _ & _).
  rewrite Htarget in Hpanels, Hattr.
  assert (Hentry : ∃ panel, (t, Some panel) ∈ sections (init d0)).
  { rewrite Hsec. unfold panel_names in Hname.
    rewrite !elem_of_cons, elem_of_nil in Hname.
    destruct Hname as [->|[->|[->|[]]]]; eexists;
      rewrite !elem_of_cons; eauto. }
  destruct Hentry as [panel Hentry].
  exists d', panel. repeat (split; [done|]).
  unfold active_panels. apply filter_only; [|done|].
  - apply (NoDup_fmap_1 snd). rewrite Hsec. exact Hnd.
  - intros [k h] Hkh.
    assert (Hsome : ∃ el, h = Some el).
    { rewrite Hsec in Hkh. rewrite !elem_of_cons, elem_of_nil in Hkh.
      destruct Hkh as [?|[?|[?|[]]]]; simplify_eq; eauto. }
    destruct Hsome as [el ->]. unfold entry_active. simpl.
    rewrite (Hpanels k el Hkh). rewrite bool_decide_eq_true. split.
    + intros [= ->]. f_equal.
      rewrite Hsec in Hkh, Hentry.
      rewrite !elem_of_cons, elem_of_nil in Hkh, Hentry.
      destruct Hkh as [?|[?|[?|[]]]]; destruct Hentry as [?|[?|[?|[]]]];
        simplify_eq; done.
    + by intros [= -> _].
Qed.

(** C10.  A click on a captured button whose data-section attribute is none
    of the three names (or is absent) ends normally with no panel left
    active, while the clicked button is the only active button. *)
Theorem click_unknown_target (d0 d : Document) (btn : Node) :
  btn ∈ actionButtons (init d0) →
  (length d0 ≤ length d)%nat →
  panels_apart (init d0) = true →
  getAttribute_data_section btn d ∉ (Some <$> panel_names) →
  ∃ d',
    click (init d0) btn d = (d', Normal)
    ∧ (∀ k el, (k, Some el) ∈ sections (init d0) →
         classList_contains el "active" d' = false)
    ∧ active_panels (init d0) d' = []
    ∧ active_buttons (init d0) d' = [btn].
Proof.
  intros Hbtn Hlen Hapart Htarget.
  destruct (click_spec d0 d btn Hbtn Hlen Hapart)
    as (d' & Hrun & Hbuttons & Hpanels & _).
  destruct (sections_init d0 d Hlen Hapart) as (r & c & p & Hsec & _ & _ & _).
  assert (Hoff : ∀ k el, (k, Some el) ∈ sections (init d0) →
            classList_contains el "active" d' = false).
  { intros k el Hkh. rewrite (Hpanels k el Hkh). apply bool_decide_eq_false.
    intros Heq. apply Htarget. rewrite <- Heq.
    apply list_elem_of_fmap_2. unfold panel_names.
    rewrite Hsec in Hkh. rewrite !elem_of_cons, elem_of_nil in Hkh.
    rewrite !elem_of_cons.
    destruct Hkh as [?|[?|[?|[]]]]; simplify_eq; eauto. }
  exists d'. repeat (split; [done|]). split; [|done].
  unfold active_panels. apply filter_none.
  intros [k h] Hkh. unfold entry_active. simpl.
  destruct h as [el|]; [|done]. by rewrite (Hoff k el Hkh).
Qed.

Lemma click_known_target_witness :
  ∃ d' panel,
    click (init page) 1 page = (d', Normal)
    ∧ active_buttons (init page) d' = [1]
    ∧ getAttribute_data_section 1 d' = Some "recent"
    ∧ (("recent", Some panel) : string * option nat) ∈ sections (init page)
    ∧ active_panels (init page) d' = [("recent", Some panel)].
Proof.
  apply (click_known_target page page 1 "recent").
  - apply (bool_decide_unpack _). by vm_compute.
  - simpl. lia.
  - by vm_compute.
  - reflexivity.
  - apply (bool_decide_unpack _). by vm_compute.
Defined.

Lemma click_unknown_target_witness :
  ∃ d',
    click (init page_stray) 6 page_stray = (d', Normal)
    ∧ (∀ k el, (k, Some el) ∈ sections (init page_stray) →
         classList_contains el "active" d' = false)
    ∧ active_panels (init page_stray) d' = []
    ∧ active_buttons (init page_stray) d' = [6].
Proof.
  apply (click_unknown_target page_stray page_stray 6).
  - apply (bool_decide_unpack _). by vm_compute.
  - simpl. lia.
  - by vm_compute.
  - apply (bool_decide_unpack _). by vm_compute.
Defined.

(** Why the panels are to be apart from the buttons: on a page where a
    panel is itself an action button, a click on it can leave no button
    active. *)
Example click_on_merged_panel :
  panels_apart (init page_merged) = false
  ∧ ∃ d', click (init page_merged) 2 page_merged = (d', Normal)
          ∧ active_buttons (init page_merged) d' = [].
Proof. split; [reflexivity|]. eexists. split; reflexivity. Qed.

End PanelFacts.

(** ** The report submitter *)

Section ReportFacts.
Import Js Report.

Lemma server_error_message_prefix error :
  ∃ rest, server_error_message error = String "E" rest.
Proof. unfold server_error_message. simpl. eauto. Qed.

Lemma textContent_show text class p :
  textContent (submitStatus (show text class p)) = text.
Proof. reflexivity. Qed.

(** C2, as stated, fails.  A 400 response with the body [{"error": ""}] has
    an error field, yet the text shown is the generic one and not the one
    made of the field. *)
Lemma server_error_empty_field_counterexample :
  let data := JObj [("error", JStr "")] in
  let shown := textContent (submitStatus (submit_finish (Responded false (Json data)) sample)) in
  get "error" data = Got (Some (JStr ""))
  ∧ shown = "Error: Failed to submit"
  ∧ stated_error_text data = "Error: "
  ∧ shown ≠ stated_error_text data.
Proof. repeat split; try reflexivity. discriminate. Qed.

Lemma ToString_printable (v : Value) :
  printable v = true → ToString v = Got (to_string_value v).
Proof. unfold ToString. by intros ->. Qed.

Lemma server_error_text_printable (error : Value) :
  (truthy error = true → printable error = true) →
  server_error_text error = Got (server_error_message error).
Proof.
  intros Hprint. unfold server_error_text, server_error_message.
  destruct (truthy error); [|reflexivity].
  by rewrite ToString_printable by auto.
Qed.

(** C2, amended.  When the request settles with a status that is not ok and
    a body that parses to a JSON value other than null, whose error field,
    if truthy, can be turned into a string, the status line reads Error:
    followed by the error field of the body when that field is there and
    truthy, and Error: Failed to submit when the field is absent or falsy
    (the empty string, 0, false, null); the line gains the class error and
    the form is left as it is. *)
Theorem server_error_shown (p : Page) (data : JSON) (error : Value) :
  get "error" data = Got error →
  (truthy error = true → printable error = true) →
  let p' := submit_finish (Responded false (Json data)) p in
  textContent (submitStatus p') = server_error_message error
  ∧ (truthy error = true →
       textContent (submitStatus p') = "Error: " ++ to_string_value error)
  ∧ (truthy error = false →
       textContent (submitStatus p') = "Error: Failed to submit")
  ∧ classList (submitStatus p') = DOMTokenList.add "error" (classList (submitStatus p))
  ∧ controls p' = controls p.
Proof.
  intros Hget Hprint. unfold submit_finish, try_block. cbv zeta. cbn [negb].
  rewrite Hget, (server_error_text_printable error Hprint).
  cbn [show with_status submitStatus textContent classList].
  unfold server_error_message.
  split; [reflexivity|]. split; [by intros ->|]. split; [by intros ->|].
  repeat split.
Qed.

Lemma server_error_shown_witness :
  textContent (submitStatus
    (submit_finish (Responded false (Json (JObj [("error", JStr "bad input")]))) sample))
  = "Error: bad input".
Proof.
  pose proof (server_error_shown sample (JObj [("error", JStr "bad input")])
                (Some (JStr "bad input")) eq_refl (λ _, eq_refl)) as H.
  simpl in H. destruct H as (_ & Htruthy & _).
  exact (Htruthy eq_refl).
Defined.

(** C3.  When the request settles with an ok status and a body that parses
    as JSON, the status line reads the success message and gains the class
    success, every control of the form is back at its default, and the
    temporary checkbox is checked. *)
Theorem success_resets_form (p : Page) (data : JSON) :
  let p' := submit_finish (Responded true (Json data)) p in
  textContent (submitStatus p') = success_message
  ∧ classList (submitStatus p') = DOMTokenList.add "success" (classList (submitStatus p))
  ∧ value (location_name p') = defaultValue (location_name p)
  ∧ value (hazard_type p') = defaultValue (hazard_type p)
  ∧ value (accessibility p') = defaultValue (accessibility p)
  ∧ value (user_type p') = defaultValue (user_type p)
  ∧ value (description p') = defaultValue (description p)
  ∧ checked (temporary p') = true.
Proof. repeat split. Qed.

(** C4.  When [fetch] rejects, the status line reads the network error
    message, and no server error message, whatever the error field, is that
    text. *)
Theorem network_error_shown (p : Page) :
  textContent (submitStatus (submit_finish Rejected p)) = network_error_message
  ∧ ∀ error : Value, server_error_message error ≠ network_error_message.
Proof.
  split; [reflexivity|].
  intros error. destruct (server_error_message_prefix error) as [rest ->].
  discriminate.
Qed.

(** C8.  The request of a submission is a POST to /api/report whose body is
    the JSON text of an object with the six keys location_name, hazard_type,
    accessibility, user_type, temporary, description in this order, the
    values read off the controls at that moment: temporary the checked
    state, as a boolean, and the others strings (location_name, hazard_type
    and description trimmed). *)
Theorem payload_shape (p : Page) :
  let request := (submit_start p).2 in
  let text s := Some (JStr s) in
  url request = "/api/report"
  ∧ method request = "POST"
  ∧ headers request = [("Content-Type", "application/json")]
  ∧ (∃ members, payload p = JObj members
       ∧ body request = Some (stringify (JObj members))
       ∧ members.*1 = ["location_name"; "hazard_type"; "accessibility";
                       "user_type"; "temporary"; "description"]
       ∧ own "location_name" members = text (trim (value (location_name p)))
       ∧ own "hazard_type" members = text (trim (value (hazard_type p)))
       ∧ own "accessibility" members = text (value (accessibility p))
       ∧ own "user_type" members = text (value (user_type p))
       ∧ own "temporary" members = Some (JBool (checked (temporary p)))
       ∧ own "description" members = text (trim (value (description p))))
  ∧ body request = Some (
      "{" ++ quote "location_name" ++ ":" ++ quote (trim (value (location_name p)))
      ++ "," ++ quote "hazard_type" ++ ":" ++ quote (trim (value (hazard_type p)))
      ++ "," ++ quote "accessibility" ++ ":" ++ quote (value (accessibility p))
      ++ "," ++ quote "user_type" ++ ":" ++ quote (value (user_type p))
      ++ "," ++ quote "temporary" ++ ":"
             ++ (if checked (temporary p) then "true" else "false")
      ++ "," ++ quote "description" ++ ":" ++ quote (trim (value (description p)))
      ++ "}").
Proof.
  cbv zeta. do 3 (split; [reflexivity|]). split.
  - eexists. split; [reflexivity|]. repeat split.
  - unfold submit_start, payload. cbn [snd body with_status location_name
      hazard_type accessibility user_type temporary description].
    f_equal. cbn [stringify]. destruct (checked (temporary p));
      rewrite ?append_assoc; reflexivity.
Qed.

(** C9.  When a response arrives, whatever its status, with a body that is
    not JSON, the listener ends in its catch block: the status line reads
    the network error message, which is neither the success message nor a
    server error message, and the controls of the form are left as they
    are. *)
Theorem unparseable_body_is_network_error (ok : bool) (p : Page) :
  let p' := submit_finish (Responded ok NotJson) p in
  p' = catch_block p
  ∧ textContent (submitStatus p') = network_error_message
  ∧ textContent (submitStatus p') ≠ success_message
  ∧ (∀ error : Value, textContent (submitStatus p') ≠ server_error_message error)
  ∧ classList (submitStatus p') = DOMTokenList.add "error" (classList (submitStatus p))
  ∧ controls p' = controls p.
Proof.
  cbv zeta. split; [reflexivity|]. split; [reflexivity|].
  split; [discriminate|]. split; [|repeat split].
  intros error. destruct (server_error_message_prefix error) as [rest ->].
  discriminate.
Qed.

End ReportFacts.

(** ** The recent hazards fetcher *)

Section RecentFacts.
Import Js Recent.

Variable string_gt_zero : string → bool.




(** Reading a field off a value that is not null does not throw. *)
Lemma get_field (k : string) (h : JSON) :
  h ≠ JNull → get k h = Got (field k h).
Proof. by destruct h. Qed.




(** A record that is null makes the listener end in its catch block. *)
Lemma null_record_is_fetch_error (p : Page) (ok : bool) :
  hazardResults (submit_finish string_gt_zero
    (Responded ok (Json (JObj [("hazards", JArr [JNull])]))) p)
  = [TextNode fetch_error_message].
Proof. reflexivity. Qed.

(** So does a body that is null. *)
Lemma null_body_is_fetch_error (p : Page) (ok : bool) :
  hazardResults (submit_finish string_gt_zero (Responded ok (Json JNull)) p)
  = [TextNode fetch_error_message].
Proof. reflexivity. Qed.

(** C5.  A submission whose location trims to the empty string leaves the
    prompt in the results region and sends no request. *)
Theorem empty_location_prompts (p : Page) :
  trim (check_location p) = "" →
  hazardResults (submit_start p).1 = [TextNode prompt_message]
  ∧ (submit_start p).2 = None.
Proof.
  intros Hempty. unfold submit_start. cbn [set_textContent with_results check_location].
  rewrite Hempty. split; reflexivity.
Qed.

Lemma empty_location_prompts_witness :
  hazardResults (submit_start (asking "   ")).1 = [TextNode prompt_message]
  ∧ (submit_start (asking "   ")).2 = None.
Proof. apply (empty_location_prompts (asking "   ")). reflexivity. Defined.



(** C7, as stated, fails.  The body null has no hazards field, yet reading
    the field off it throws and the region holds the fetch error text. *)
Lemma no_hazards_null_body_counterexample :
  let results :=
    hazardResults (submit_finish (λ _, false) (Responded true (Json JNull))
      (asking "Elm St")) in
  lacks_hazards JNull = true
  ∧ results = [TextNode fetch_error_message]
  ∧ results ≠ [TextNode no_hazards_message].
Proof. repeat split; try reflexivity. discriminate. Qed.

(** C7, amended.  When the body is not null and has no hazards field, or an
    empty hazards array, the results region holds the no-hazards text and
    no list item. *)
Theorem no_hazards_shown (p : Page) (ok : bool) (data : JSON) :
  data ≠ JNull →
  lacks_hazards data = true →
  let p' := submit_finish string_gt_zero (Responded ok (Json data)) p in
  hazardResults p' = [TextNode no_hazards_message]
  ∧ list_items (hazardResults p') = [].
Proof.
  intros Hnull Hlacks. unfold submit_finish, try_block.
  destruct data as [| | | | |members]; [done|by split..|].
  cbn [get]. cbn [lacks_hazards] in Hlacks.
  destruct (own "hazards" members) as [[| | | |[|h hs]|]|]; try done.
Qed.

End RecentFacts.


Lemma no_hazards_shown_witness :
  let p' := Recent.submit_finish (λ _, false)
              (Js.Responded true (Js.Json (Js.JObj [("hazards", Js.JArr [])])))
              (Recent.asking "Elm St") in
  Recent.hazardResults p' = [Recent.TextNode Recent.no_hazards_message]
  ∧ Recent.list_items (Recent.hazardResults p') = [].
Proof.
  apply (no_hazards_shown (λ _, false) (Recent.asking "Elm St") true
           (Js.JObj [("hazards", Js.JArr [])])).
  - discriminate.
  - reflexivity.
Defined.

(** * Further properties

    ** Trimming and encoding *)

Section TextFacts.
Import Js.

Lemma white1_le (a : nat) : white1 a = true → (a ≤ 32)%nat.
Proof.
  unfold white1.
  rewrite orb_true_iff, andb_true_iff, !Nat.leb_le, Nat.eqb_eq. lia.
Qed.

Lemma white2_ge (a b : nat) : white2 a b = true → (128 ≤ a ∧ 128 ≤ b)%nat.
Proof. unfold white2. rewrite andb_true_iff, !Nat.eqb_eq. lia. Qed.

Lemma white3_ge (a b c : nat) :
  white3 a b c = true → (128 ≤ a ∧ 128 ≤ b ∧ 128 ≤ c)%nat.
Proof.
  unfold white3.
  rewrite !orb_true_iff, !andb_true_iff, !orb_true_iff, !andb_true_iff,
    !Nat.leb_le, !Nat.eqb_eq.
  lia.
Qed.

Lemma visible_range (a : ascii) :
  visible a = true → (33 ≤ nat_of_ascii a ≤ 126)%nat.
Proof. unfold visible. rewrite andb_true_iff, !Nat.leb_le. lia. Qed.

Lemma visible_not_white1 (a : ascii) :
  visible a = true → white1 (nat_of_ascii a) = false.
Proof.
  intros Hv%visible_range. destruct (white1 _) eqn:Hw; [|done].
  apply white1_le in Hw. lia.
Qed.

Lemma visible_not_white2 (a : ascii) (x y : nat) :
  visible a = true → x = nat_of_ascii a ∨ y = nat_of_ascii a →
  white2 x y = false.
Proof.
  intros Hv%visible_range Hxy. destruct (white2 x y) eqn:Hw; [|done].
  apply white2_ge in Hw. lia.
Qed.

Lemma visible_not_white3 (a : ascii) (x y z : nat) :
  visible a = true →
  x = nat_of_ascii a ∨ y = nat_of_ascii a ∨ z = nat_of_ascii a →
  white3 x y z = false.
Proof.
  intros Hv%visible_range Hxyz. destruct (white3 x y z) eqn:Hw; [|done].
  apply white3_ge in Hw. lia.
Qed.

(** Text that starts with a visible character has nothing to drop. *)
Lemma drop_white_starts_visible (back : bool) (s : string) :
  starts_visible s = true → drop_white back s = s.
Proof.
  destruct s as [|a r1]; [done|]. simpl. intros Hv.
  rewrite (visible_not_white1 a Hv).
  destruct r1 as [|b r2]; [done|].
  rewrite !(visible_not_white2 a _ _ Hv) by auto.
  destruct back.
  - destruct r2 as [|c r3]; [done|].
    by rewrite (visible_not_white3 a _ _ _ Hv) by auto.
  - destruct r2 as [|c r3]; [done|].
    by rewrite (visible_not_white3 a _ _ _ Hv) by auto.
Qed.

(** Dropping white space never drops a visible character. *)
Lemma drop_white_keeps_visible (back : bool) (n : nat) (s : string) :
  (String.length s ≤ n)%nat →
  string_exists visible s = true →
  string_exists visible (drop_white back s) = true.
Proof.
  revert s. induction n as [|n IH]; intros s Hlen Hs.
  { destruct s; [done|simpl in Hlen; lia]. }
  destruct s as [|a r1]; [done|].
  cbn [drop_white]. cbn [String.length] in Hlen.
  destruct (white1 (nat_of_ascii a)) eqn:Ha.
  { apply IH; [lia|]. cbn [string_exists] in Hs.
    destruct (visible a) eqn:Hv; [|done].
    by rewrite (visible_not_white1 a Hv) in Ha. }
  destruct r1 as [|b r2]; [done|]. cbn [String.length] in Hlen.
  match goal with |- context [if ?t then drop_white back r2 else _] =>
    destruct t eqn:Hab end.
  { apply IH; [lia|]. cbn [string_exists] in Hs.
    destruct (visible a) eqn:Hva.
    { destruct back; by rewrite (visible_not_white2 a _ _ Hva) in Hab by auto. }
    destruct (visible b) eqn:Hvb; [|done].
    destruct back; by rewrite (visible_not_white2 b _ _ Hvb) in Hab by auto. }
  destruct r2 as [|c r3]; [done|]. cbn [String.length] in Hlen.
  match goal with |- context [if ?t then drop_white back r3 else _] =>
    destruct t eqn:Habc end; [|done].
  apply IH; [lia|]. cbn [string_exists] in Hs.
  destruct (visible a) eqn:Hva.
  { destruct back; by rewrite (visible_not_white3 a _ _ _ Hva) in Habc by auto. }
  destruct (visible b) eqn:Hvb.
  { destruct back; by rewrite (visible_not_white3 b _ _ _ Hvb) in Habc by auto. }
  destruct (visible c) eqn:Hvc; [|done].
  destruct back; by rewrite (visible_not_white3 c _ _ _ Hvc) in Habc by auto.
Qed.

Lemma drop_white_blank (back : bool) (s : string) :
  string_forall blank s = true → drop_white back s = "".
Proof.
  induction s as [|a s IH]; [done|]. cbn [string_forall drop_white].
  intros [Ha Hs]%andb_prop. unfold blank in Ha. rewrite Ha. by apply IH.
Qed.

Lemma rev_app_rev_app (s a b : string) :
  String.rev_app (String.rev_app s a) b = String.rev_app a (s ++ b).
Proof.
  revert a. induction s as [|c s IH]; intros a; [done|].
  cbn [String.rev_app]. by rewrite IH.
Qed.

Lemma rev_rev (s : string) : String.rev (String.rev s) = s.
Proof.
  unfold String.rev. rewrite rev_app_rev_app. cbn [String.rev_app].
  apply append_empty_r.
Qed.

Lemma string_exists_rev_app (P : ascii → bool) (s acc : string) :
  string_exists P (String.rev_app s acc)
  = string_exists P s || string_exists P acc.
Proof.
  revert acc. induction s as [|c s IH]; intros acc; [done|].
  cbn [String.rev_app string_exists]. rewrite IH. cbn [string_exists].
  destruct (P c), (string_exists P s); done.
Qed.

Lemma string_exists_rev (P : ascii → bool) (s : string) :
  string_exists P (String.rev s) = string_exists P s.
Proof.
  unfold String.rev. rewrite string_exists_rev_app. cbn [string_exists].
  apply orb_false_r.
Qed.

Lemma trim_blank (s : string) : string_forall blank s = true → trim s = "".
Proof. intros Hs. unfold trim. by rewrite (drop_white_blank false s Hs). Qed.

Lemma trim_keeps_visible (s : string) :
  string_exists visible s = true → string_exists visible (trim s) = true.
Proof.
  intros Hs. unfold trim. rewrite string_exists_rev.
  eapply drop_white_keeps_visible; [done|]. rewrite string_exists_rev.
  by eapply drop_white_keeps_visible.
Qed.

Lemma trim_between_visible (s : string) :
  starts_visible s = true → starts_visible (String.rev s) = true → trim s = s.
Proof.
  intros Hfront Hback. unfold trim.
  rewrite (drop_white_starts_visible false s Hfront).
  rewrite (drop_white_starts_visible true _ Hback). apply rev_rev.
Qed.

(** *** Trimming gives a part of the text *)

Lemma drop_white_suffix (back : bool) (n : nat) (s : string) :
  (String.length s ≤ n)%nat → ∃ front, s = front ++ drop_white back s.
Proof.
  revert s. induction n as [|n IH]; intros s Hlen.
  { destruct s; [by exists ""|simpl in Hlen; lia]. }
  destruct s as [|a r1]; [by exists ""|].
  cbn [drop_white]. cbn [String.length] in Hlen.
  destruct (white1 (nat_of_ascii a)).
  { destruct (IH r1) as [front Hfront]; [lia|].
    exists (String a front). by rewrite Hfront at 1. }
  destruct r1 as [|b r2]; [by exists ""|]. cbn [String.length] in Hlen.
  match goal with |- context [if ?t then drop_white back r2 else _] =>
    destruct t end.
  { destruct (IH r2) as [front Hfront]; [lia|].
    exists (String a (String b front)). by rewrite Hfront at 1. }
  destruct r2 as [|c r3]; [by exists ""|]. cbn [String.length] in Hlen.
  match goal with |- context [if ?t then drop_white back r3 else _] =>
    destruct t end; [|by exists ""].
  destruct (IH r3) as [front Hfront]; [lia|].
  exists (String a (String b (String c front))). by rewrite Hfront at 1.
Qed.

Lemma rev_app_append (s acc : string) :
  String.rev_app s acc = String.rev_app s "" ++ acc.
Proof.
  revert acc. induction s as [|c s IH]; intros acc; [done|].
  cbn [String.rev_app]. rewrite (IH (String c acc)), (IH (String c "")).
  by rewrite append_assoc.
Qed.

Lemma rev_append (s t : string) :
  String.rev (s ++ t) = String.rev t ++ String.rev s.
Proof.
  unfold String.rev. generalize "" at 1 3 as acc.
  induction s as [|c s IH]; intros acc.
  - change ("" ++ t) with t. cbn [String.rev_app]. apply rev_app_append.
  - change (String c s ++ t) with (String c (s ++ t)).
    cbn [String.rev_app]. apply IH.
Qed.

Lemma trim_is_a_part (s : string) : ∃ front back, s = front ++ trim s ++ back.
Proof.
  destruct (drop_white_suffix false _ s (le_n _)) as [front Hfront].
  destruct (drop_white_suffix true _ (String.rev (drop_white false s)) (le_n _))
    as [back Hback].
  exists front, (String.rev back). unfold trim.
  rewrite <- rev_append, <- Hback, rev_rev. exact Hfront.
Qed.

Lemma lone_surrogate_tail (a : ascii) (s : string) :
  lone_surrogate s = true → lone_surrogate (String a s) = true.
Proof.
  destruct s as [|b s]; [done|]. intros Hs.
  change (lone_surrogate (String a (String b s)))
    with (surrogate_lead (nat_of_ascii a) (nat_of_ascii b)
          || lone_surrogate (String b s)).
  rewrite Hs. apply orb_true_r.
Qed.

Lemma lone_surrogate_append_l (front s : string) :
  lone_surrogate s = true → lone_surrogate (front ++ s) = true.
Proof.
  intros Hs. induction front as [|a front IH]; [done|].
  change (String a front ++ s) with (String a (front ++ s)).
  by apply lone_surrogate_tail.
Qed.

Lemma lone_surrogate_append_r (s back : string) :
  lone_surrogate s = true → lone_surrogate (s ++ back) = true.
Proof.
  induction s as [|a s IH]; [done|].
  destruct s as [|b s]; [done|].
  change (String a (String b s) ++ back)
    with (String a (String b s ++ back)).
  change (String b s ++ back) with (String b (s ++ back)) in *.
  change (lone_surrogate (String a (String b s)))
    with (surrogate_lead (nat_of_ascii a) (nat_of_ascii b)
          || lone_surrogate (String b s)).
  change (lone_surrogate (String a (String b (s ++ back))))
    with (surrogate_lead (nat_of_ascii a) (nat_of_ascii b)
          || lone_surrogate (String b (s ++ back))).
  intros [->|Hs]%orb_prop; [done|].
  rewrite (IH Hs). apply orb_true_r.
Qed.

Lemma lone_surrogate_trim (s : string) :
  lone_surrogate s = false → lone_surrogate (trim s) = false.
Proof.
  intros Hs. destruct (lone_surrogate (trim s)) eqn:Htrim; [|done].
  destruct (trim_is_a_part s) as (front & back & Hpart).
  rewrite Hpart in Hs. rewrite <- Hs. symmetry.
  by apply lone_surrogate_append_l, lone_surrogate_append_r.
Qed.

Lemma string_forall_append (P : ascii → bool) (s t : string) :
  string_forall P (s ++ t) = string_forall P s && string_forall P t.
Proof.
  induction s as [|a s IH]; [done|].
  change (String a s ++ t) with (String a (s ++ t)).
  cbn [string_forall]. rewrite IH. apply andb_assoc.
Qed.

Lemma encoded_char_is_uri_char (a : ascii) :
  string_forall uri_char
    (if unreserved (nat_of_ascii a) then String a EmptyString
     else "%" ++ hex_byte true (nat_of_ascii a)) = true.
Proof. destruct a as [[] [] [] [] [] [] [] []]; vm_compute; reflexivity. Qed.

Lemma percent_encode_uri_chars (s : string) :
  string_forall uri_char (percent_encode s) = true.
Proof.
  induction s as [|a s IH]; [done|]. cbn [percent_encode].
  by rewrite string_forall_append, encoded_char_is_uri_char, IH.
Qed.

Lemma hex_digit_inj (k k' : nat) :
  (k < 16)%nat → (k' < 16)%nat →
  hex_digit true k = hex_digit true k' → k = k'.
Proof.
  intros Hk Hk' Heq. unfold hex_digit, byte in Heq.
  assert (Hnat : ∀ m m', (m < 256)%nat → (m' < 256)%nat →
            ascii_of_nat m = ascii_of_nat m' → m = m').
  { intros m m' Hm Hm' Hmm.
    by rewrite <- (nat_ascii_embedding m), <- (nat_ascii_embedding m'), Hmm. }
  destruct (Nat.ltb_spec k 10), (Nat.ltb_spec k' 10);
    injection Heq as Heq; apply Hnat in Heq; lia.
Qed.

(** The code of a character is no prefix of the code of another. *)
Lemma encoded_char_inj (a b : ascii) (r1 r2 : string) :
  (if unreserved (nat_of_ascii a) then String a EmptyString
   else "%" ++ hex_byte true (nat_of_ascii a)) ++ r1
  = (if unreserved (nat_of_ascii b) then String b EmptyString
     else "%" ++ hex_byte true (nat_of_ascii b)) ++ r2 →
  a = b ∧ r1 = r2.
Proof.
  pose proof (nat_ascii_bounded a) as Ha.
  pose proof (nat_ascii_bounded b) as Hb.
  assert (Hpercent : ∀ c, unreserved (nat_of_ascii c) = true → c ≠ "%"%char).
  { intros c Hc ->. discriminate Hc. }
  unfold hex_byte.
  assert (Hdigit : ∀ k, ∃ h, hex_digit true k = String h EmptyString).
  { intros k. unfold hex_digit, byte. destruct (k <? 10)%nat; eauto. }
  destruct (unreserved (nat_of_ascii a)) eqn:Hua,
    (unreserved (nat_of_ascii b)) eqn:Hub.
  - intros Heq. cbv [String.append] in Heq. by injection Heq as -> ->.
  - destruct (Hdigit (nat_of_ascii b / 16)%nat) as [h1 ->].
    destruct (Hdigit (nat_of_ascii b mod 16)%nat) as [h2 ->].
    intros Heq. cbv [String.append] in Heq. injection Heq as -> _.
    by destruct (Hpercent _ Hua).
  - destruct (Hdigit (nat_of_ascii a / 16)%nat) as [h1 ->].
    destruct (Hdigit (nat_of_ascii a mod 16)%nat) as [h2 ->].
    intros Heq. cbv [String.append] in Heq. injection Heq as <- _.
    by destruct (Hpercent _ Hub).
  - destruct (Hdigit (nat_of_ascii a / 16)%nat) as [h1 Hh1].
    destruct (Hdigit (nat_of_ascii a mod 16)%nat) as [h2 Hh2].
    destruct (Hdigit (nat_of_ascii b / 16)%nat) as [h3 Hh3].
    destruct (Hdigit (nat_of_ascii b mod 16)%nat) as [h4 Hh4].
    rewrite Hh1, Hh2, Hh3, Hh4. intros Heq. cbv [String.append] in Heq.
    injection Heq as -> -> ->. split; [|done].
    rewrite <- Hh3 in Hh1. rewrite <- Hh4 in Hh2.
    apply hex_digit_inj in Hh1;
      [|apply Nat.Div0.div_lt_upper_bound; lia..].
    apply hex_digit_inj in Hh2; [|apply Nat.mod_upper_bound; lia..].
    rewrite <- (ascii_nat_embedding a), <- (ascii_nat_embedding b).
    f_equal.
    rewrite (Nat.div_mod_eq (nat_of_ascii a) 16),
      (Nat.div_mod_eq (nat_of_ascii b) 16).
    by rewrite Hh1, Hh2.
Qed.

Lemma percent_encode_inj (s t : string) :
  percent_encode s = percent_encode t → s = t.
Proof.
  revert t. induction s as [|a s IH]; intros [|b t].
  - done.
  - cbn [percent_encode]. intros Heq.
    destruct (unreserved _); cbv [String.append] in Heq; discriminate.
  - cbn [percent_encode]. intros Heq.
    destruct (unreserved _); cbv [String.append] in Heq; discriminate.
  - cbn [percent_encode]. intros [-> Hrest]%encoded_char_inj.
    f_equal. by apply IH.
Qed.

End TextFacts.

(** ** The panel switcher: what a click leaves alone, when it throws, and
    how clicks compose *)

Section PanelRuns.
Import Panel.

Lemma DOMTokenList_remove_remove tok cl :
  DOMTokenList.remove tok (DOMTokenList.remove tok cl) = DOMTokenList.remove tok cl.
Proof.
  unfold DOMTokenList.remove. induction cl as [|t cl IH]; [done|].
  rewrite (filter_cons _ t cl). case_decide.
  - rewrite filter_cons_True by done. by rewrite IH.
  - exact IH.
Qed.

Lemma DOMTokenList_remove_add tok cl :
  DOMTokenList.remove tok (DOMTokenList.add tok cl) = DOMTokenList.remove tok cl.
Proof.
  unfold DOMTokenList.add, DOMTokenList.remove.
  destruct (DOMTokenList.contains tok cl); [done|].
  rewrite filter_app, filter_cons_False, filter_nil by (intros H; by apply H).
  apply app_nil_r.
Qed.

Lemma DOMTokenList_add_add tok cl :
  DOMTokenList.add tok (DOMTokenList.add tok cl) = DOMTokenList.add tok cl.
Proof.
  unfold DOMTokenList.add at 1. by rewrite DOMTokenList_contains_add.
Qed.

Lemma DOMTokenList_add_remove_again tok cl :
  DOMTokenList.add tok (DOMTokenList.remove tok
    (DOMTokenList.add tok (DOMTokenList.remove tok cl)))
  = DOMTokenList.add tok (DOMTokenList.remove tok cl).
Proof. by rewrite DOMTokenList_remove_add, DOMTokenList_remove_remove. Qed.

(** *** What a click leaves alone *)

Lemma same_but_active_refl (d : Document) : Forall2 same_but_active d d.
Proof. induction d; constructor; [done|done]. Qed.

Lemma same_but_active_add n (d d' : Document) :
  Forall2 same_but_active d d' →
  Forall2 same_but_active d (classList_add n "active" d').
Proof.
  intros H. apply Forall2_alter_r; [done|].
  intros e e' _ _ (Hid & Hattr & Hcl). repeat split; [done|done|].
  simpl. by rewrite DOMTokenList_remove_add.
Qed.

Lemma same_but_active_remove n (d d' : Document) :
  Forall2 same_but_active d d' →
  Forall2 same_but_active d (classList_remove n "active" d').
Proof.
  intros H. apply Forall2_alter_r; [done|].
  intros e e' _ _ (Hid & Hattr & Hcl). repeat split; [done|done|].
  simpl. by rewrite DOMTokenList_remove_remove.
Qed.

Lemma same_but_active_clear_buttons bs (d d' : Document) :
  Forall2 same_but_active d d' →
  Forall2 same_but_active d (clear_buttons bs d').
Proof.
  revert d'. induction bs as [|b bs IH]; intros d' H; [done|].
  simpl. by apply IH, same_but_active_remove.
Qed.

Lemma same_but_active_toggle_sections target entries (d d' : Document) :
  Forall2 same_but_active d d' →
  Forall2 same_but_active d (toggle_sections target entries d').1.
Proof.
  revert d'. induction entries as [|[key [el|]] rest IH]; intros d' H;
    [done| |done].
  simpl. apply IH. case_bool_decide;
    [by apply same_but_active_add|by apply same_but_active_remove].
Qed.

Lemma same_but_active_click (c : Captured) (btn : Node) (d d' : Document) :
  Forall2 same_but_active d d' →
  Forall2 same_but_active d (click c btn d').1.
Proof.
  intros H. unfold click.
  by apply same_but_active_toggle_sections, same_but_active_add,
    same_but_active_clear_buttons.
Qed.

(** X1.  Whatever the captured nodes and the store, and whether the click
    ends normally or throws, it keeps the number of elements and, in each
    element, the id, the data-section attribute and every class other than
    active, in their order. *)
Theorem click_only_toggles_active (c : Captured) (btn : Node) (d : Document) :
  Forall2 same_but_active d (click c btn d).1.
Proof. apply same_but_active_click, same_but_active_refl. Qed.

Lemma same_but_active_clicks c bs (d d' : Document) :
  Forall2 same_but_active d d' →
  Forall2 same_but_active d (clicks c bs d').
Proof.
  revert d'. induction bs as [|b bs IH]; intros d' H; [done|].
  simpl. by apply IH, same_but_active_click.
Qed.

Lemma same_but_active_attribute (d d' : Document) n :
  Forall2 same_but_active d d' →
  getAttribute_data_section n d' = getAttribute_data_section n d.
Proof.
  intros H. unfold getAttribute_data_section.
  destruct (d !! n) as [e|] eqn:He.
  - destruct (Forall2_lookup_l _ _ _ _ _ H He) as (e' & -> & _ & Hattr & _).
    simpl. done.
  - apply Forall2_length in H.
    apply lookup_ge_None in He. rewrite H in He.
    apply lookup_ge_None in He. by rewrite He.
Qed.

(** *** The nodes a click does not reach *)

Lemma lookup_clear_buttons bs (d : Document) n :
  clear_buttons bs d !! n
  = if decide (n ∈ bs)
    then set_classList (DOMTokenList.remove "active") <$> d !! n
    else d !! n.
Proof.
  revert d. induction bs as [|b bs IH]; intros d.
  - simpl. destruct (decide (n ∈ [])) as [Hin|Hin]; [by apply elem_of_nil in Hin|done].
  - simpl. rewrite IH. unfold classList_remove.
    destruct (decide (n = b)) as [->|Hne].
    + rewrite list_lookup_alter_eq.
      rewrite (decide_True (P := b ∈ b :: bs)) by left.
      case_decide; [|done].
      destruct (d !! b) as [e|]; [|done]. simpl. f_equal.
      unfold set_classList. simpl. by rewrite DOMTokenList_remove_remove.
    + rewrite list_lookup_alter_ne by done.
      destruct (decide (n ∈ bs)) as [Hin|Hin].
      * by rewrite (decide_True (P := n ∈ b :: bs)) by (by right).
      * rewrite (decide_False (P := n ∈ b :: bs)); [done|].
        rewrite elem_of_cons. intros [?|?]; done.
Qed.

Lemma lookup_toggle_sections_outside target entries (d : Document) n :
  Some n ∉ entries.*2 →
  (toggle_sections target entries d).1 !! n = d !! n.
Proof.
  revert d. induction entries as [|[key [el|]] rest IH]; intros d Hn;
    [done| |done].
  simpl in Hn. apply not_elem_of_cons in Hn as [Hne Hn].
  simpl. rewrite IH by done.
  assert (el ≠ n) by congruence.
  case_bool_decide; unfold classList_add, classList_remove;
    by rewrite list_lookup_alter_ne.
Qed.

Lemma click_lookup_other (c : Captured) (btn n : Node) (d : Document) :
  n ≠ btn →
  n ∉ actionButtons c →
  Some n ∉ (sections c).*2 →
  (click c btn d).1 !! n = d !! n.
Proof.
  intros Hbtn Hbs Hsec. unfold click.
  rewrite lookup_toggle_sections_outside by done.
  unfold classList_add. rewrite list_lookup_alter_ne by done.
  rewrite lookup_clear_buttons. by rewrite decide_False.
Qed.

Lemma click_lookup_button (c : Captured) (btn n : Node) (d : Document) :
  n ≠ btn →
  n ∈ actionButtons c →
  Some n ∉ (sections c).*2 →
  (click c btn d).1 !! n
  = set_classList (DOMTokenList.remove "active") <$> d !! n.
Proof.
  intros Hbtn Hbs Hsec. unfold click.
  rewrite lookup_toggle_sections_outside by done.
  unfold classList_add. rewrite list_lookup_alter_ne by done.
  rewrite lookup_clear_buttons. by rewrite decide_True.
Qed.

Lemma click_lookup_clicked (c : Captured) (btn : Node) (d : Document) :
  btn ∈ actionButtons c →
  Some btn ∉ (sections c).*2 →
  (click c btn d).1 !! btn
  = set_classList (λ cl, DOMTokenList.add "active"
                           (DOMTokenList.remove "active" cl)) <$> d !! btn.
Proof.
  intros Hbs Hsec. unfold click.
  rewrite lookup_toggle_sections_outside by done.
  unfold classList_add. rewrite list_lookup_alter_eq.
  rewrite lookup_clear_buttons, decide_True by done.
  by destruct (d !! btn).
Qed.

(** X2.  A node that is neither the clicked button, nor a captured button,
    nor a captured panel is exactly as it was after the click. *)
Theorem click_leaves_other_nodes (c : Captured) (btn n : Node) (d : Document) :
  n ≠ btn →
  n ∉ actionButtons c →
  Some n ∉ (sections c).*2 →
  (click c btn d).1 !! n = d !! n.
Proof. apply click_lookup_other. Qed.

Lemma click_leaves_other_nodes_witness :
  (click (init page_framed) 2 page_framed).1 !! 0
  = Some (mkElement (Some "title") None ["active"; "banner"]).
Proof.
  rewrite (click_leaves_other_nodes (init page_framed) 2 0 page_framed).
  - reflexivity.
  - lia.
  - apply (bool_decide_unpack _). by vm_compute.
  - apply (bool_decide_unpack _). by vm_compute.
Defined.

(** *** When a click throws *)

Lemma toggle_sections_completion target entries (d : Document) :
  (toggle_sections target entries d).2 = Normal
  ↔ Forall (λ kh, is_Some kh.2) entries.
Proof.
  revert d. induction entries as [|[key [el|]] rest IH]; intros d; simpl.
  - split; [constructor|done].
  - rewrite IH, Forall_cons. simpl. split; [|by intros [_ ?]].
    intros H. split; [by eexists|done].
  - split; [done|]. intros [H _]%Forall_cons. simpl in H. by destruct H.
Qed.

(** X3.  A click throws exactly when one of the three panel elements was
    not in the document at load time; the button clicked and the state of
    the store play no part. *)
Theorem click_throws_iff_panel_missing (d0 d : Document) (btn : Node) :
  (click (init d0) btn d).2 = TypeError
  ↔ getElementById "section-report" d0 = None
    ∨ getElementById "section-recent" d0 = None
    ∨ getElementById "section-predict" d0 = None.
Proof.
  unfold click.
  pose proof (toggle_sections_completion
    (getAttribute_data_section btn d) (sections (init d0))
    (classList_add btn "active" (clear_buttons (actionButtons (init d0)) d)))
    as Hiff.
  destruct (toggle_sections _ _ _) as [d' [|]]; simpl in *.
  - split; [done|]. intros Hmissing.
    destruct Hiff as [Hall _]. specialize (Hall eq_refl).
    apply Forall_cons in Hall as [[? Hr] Hall].
    apply Forall_cons in Hall as [[? Hc] Hall].
    apply Forall_cons in Hall as [[? Hp] _]. simpl in *.
    destruct Hmissing as [?|[?|?]]; congruence.
  - split; [|done]. intros _.
    destruct (getElementById "section-report" d0) eqn:Hr; [|by left].
    destruct (getElementById "section-recent" d0) eqn:Hc; [|by right; left].
    destruct (getElementById "section-predict" d0) eqn:Hp; [|by right; right].
    destruct Hiff as [_ Hall]. discriminate Hall.
    repeat (apply Forall_cons; split); try apply Forall_nil_2; by eexists.
Qed.

(** *** A second click on the same button *)

Lemma lookup_toggle_sections_inside target entries (d : Document) k n :
  Forall (λ kh, is_Some kh.2) entries →
  NoDup (entries.*2) →
  (k, Some n) ∈ entries →
  (toggle_sections target entries d).1 !! n
  = set_classList (if bool_decide (Some k = target)
                   then DOMTokenList.add "active"
                   else DOMTokenList.remove "active") <$> d !! n.
Proof.
  revert d. induction entries as [|[key [el|]] rest IH]; intros d Hall Hnd Hin.
  - by apply elem_of_nil in Hin.
  - apply Forall_cons in Hall as [_ Hall].
    simpl in Hnd. apply NoDup_cons in Hnd as [Hfresh Hnd]. simpl.
    apply elem_of_cons in Hin as [Heq|Hin].
    + injection Heq as -> ->.
      rewrite lookup_toggle_sections_outside by done.
      case_bool_decide; unfold classList_add, classList_remove;
        by rewrite list_lookup_alter_eq.
    + rewrite IH by done.
      assert (el ≠ n).
      { intros ->. apply Hfresh. apply list_elem_of_fmap.
        by exists (k, Some n). }
      case_bool_decide; case_bool_decide; try done;
        unfold classList_add, classList_remove;
        by rewrite list_lookup_alter_ne.
  - apply Forall_cons in Hall as [[? H] _]. done.
Qed.

Lemma panels_apart_init (d0 : Document) :
  panels_apart (init d0) = true →
  Forall (λ kh, is_Some kh.2) (sections (init d0))
  ∧ NoDup ((sections (init d0)).*2)
  ∧ (∀ n, Some n ∈ (sections (init d0)).*2 → n ∉ actionButtons (init d0)).
Proof.
  intros Hapart.
  destruct (sections_init d0 d0 (le_n _) Hapart)
    as (r & c & p & Hsec & Hnd & _ & Hout).
  rewrite Hsec. split; [|split].
  - repeat (apply Forall_cons; split); try apply Forall_nil_2; by eexists.
  - exact Hnd.
  - simpl. intros n. rewrite !elem_of_cons, elem_of_nil.
    apply Forall_cons in Hout as [? Hout].
    apply Forall_cons in Hout as [? Hout].
    apply Forall_cons in Hout as [? _].
    intros [?|[?|[?|[]]]]; simplify_eq; done.
Qed.

Lemma click_again_at (f : list string → list string) (o : option Element) :
  (∀ cl, f (f cl) = f cl) →
  set_classList f <$> (set_classList f <$> o) = set_classList f <$> o.
Proof.
  intros Hf. destruct o as [e|]; [|done]. simpl. f_equal.
  unfold set_classList. simpl. by rewrite Hf.
Qed.

Lemma click_lookup_panel (c : Captured) (btn n : Node) (d : Document) k :
  Forall (λ kh, is_Some kh.2) (sections c) →
  NoDup ((sections c).*2) →
  n ≠ btn →
  n ∉ actionButtons c →
  (k, Some n) ∈ sections c →
  (click c btn d).1 !! n
  = set_classList (if bool_decide (Some k = getAttribute_data_section btn d)
                   then DOMTokenList.add "active"
                   else DOMTokenList.remove "active") <$> d !! n.
Proof.
  intros Hall Hnd Hbtn Hbs Hin. unfold click.
  rewrite (lookup_toggle_sections_inside _ _ _ k n) by done.
  unfold classList_add. rewrite list_lookup_alter_ne by done.
  by rewrite lookup_clear_buttons, decide_False.
Qed.

(** X4.  On a document that has the three panels, none of them an action
    button, a second click on the same button changes nothing: it gives
    the store of the first click, element for element, class lists in the
    same order. *)
Theorem click_twice (d0 d : Document) (btn : Node) :
  btn ∈ actionButtons (init d0) →
  panels_apart (init d0) = true →
  click (init d0) btn (click (init d0) btn d).1 = click (init d0) btn d.
Proof.
  intros Hbtn Hapart.
  destruct (panels_apart_init d0 Hapart) as (Hall & Hnd & Hout).
  set (c := init d0) in *.
  assert (Hnormal : ∀ d', (click c btn d').2 = Normal).
  { intros d'. unfold click. by apply toggle_sections_completion. }
  assert (Hattr : getAttribute_data_section btn (click c btn d).1
                  = getAttribute_data_section btn d).
  { apply same_but_active_attribute, same_but_active_click, same_but_active_refl. }
  apply injective_projections; [|by rewrite !Hnormal].
  apply list_eq. intros n.
  destruct (decide (Some n ∈ (sections c).*2)) as [Hpanel|Hpanel].
  - apply list_elem_of_fmap in Hpanel as ([k h] & Hh & Hin). simpl in Hh. subst h.
    assert (n ∉ actionButtons c).
    { apply Hout. apply list_elem_of_fmap. by exists (k, Some n). }
    assert (n ≠ btn) by (by intros ->).
    rewrite !(click_lookup_panel c btn n _ k) by done. rewrite Hattr.
    apply click_again_at. intros cl. case_bool_decide.
    + apply DOMTokenList_add_add.
    + apply DOMTokenList_remove_remove.
  - destruct (decide (n = btn)) as [->|Hne].
    + rewrite !click_lookup_clicked by done.
      apply click_again_at. intros cl. apply DOMTokenList_add_remove_again.
    + destruct (decide (n ∈ actionButtons c)).
      * rewrite !click_lookup_button by done.
        apply click_again_at, DOMTokenList_remove_remove.
      * by rewrite !click_lookup_other.
Qed.

Lemma click_twice_witness :
  click (init page_framed) 1 (click (init page_framed) 1 page_framed).1
  = click (init page_framed) 1 page_framed.
Proof.
  apply (click_twice page_framed page_framed 1).
  - apply (bool_decide_unpack _). by vm_compute.
  - by vm_compute.
Defined.

(** *** Clicks one after the other *)

Lemma length_clicks c bs (d : Document) : length (clicks c bs d) = length d.
Proof.
  symmetry. eapply Forall2_length, same_but_active_clicks, same_but_active_refl.
Qed.

Lemma clicks_snoc c bs btn (d : Document) :
  clicks c (bs ++ [btn]) d = (click c btn (clicks c bs d)).1.
Proof. unfold clicks. by rewrite foldl_snoc. Qed.

(** X5.  After any run of clicks on captured buttons, the last click alone
    decides what is shown: the button clicked last is the only active
    button, and a panel is active exactly when its name is the data-section
    that button had before the run. *)
Theorem last_click_wins (d0 d : Document) (bs : list Node) (btn : Node) :
  btn ∈ actionButtons (init d0) →
  (length d0 ≤ length d)%nat →
  panels_apart (init d0) = true →
  let d' := clicks (init d0) (bs ++ [btn]) d in
  active_buttons (init d0) d' = [btn]
  ∧ ∀ k el, (k, Some el) ∈ sections (init d0) →
      classList_contains el "active" d'
      = bool_decide (Some k = getAttribute_data_section btn d).
Proof.
  intros Hbtn Hlen Hapart d'. subst d'. rewrite clicks_snoc.
  destruct (click_spec d0 (clicks (init d0) bs d) btn Hbtn)
    as (d' & Hrun & Hbuttons & Hpanels & _); [|done|].
  { by rewrite length_clicks. }
  assert (Hattr : getAttribute_data_section btn (clicks (init d0) bs d)
                  = getAttribute_data_section btn d).
  { apply same_but_active_attribute, same_but_active_clicks,
      same_but_active_refl. }
  rewrite Hattr in Hpanels. rewrite Hrun. split; [exact Hbuttons|exact Hpanels].
Qed.

Lemma last_click_wins_witness :
  let d' := clicks (init page_framed) ([2; 3; 1; 1] ++ [2]) page_framed in
  active_buttons (init page_framed) d' = [2]
  ∧ ∀ k el, (k, Some el) ∈ sections (init page_framed) →
      classList_contains el "active" d'
      = bool_decide (Some k = getAttribute_data_section 2 page_framed).
Proof.
  apply (last_click_wins page_framed page_framed [2; 3; 1; 1] 2).
  - apply (bool_decide_unpack _). by vm_compute.
  - simpl. lia.
  - by vm_compute.
Defined.

End PanelRuns.

(** ** The report submitter: a whole submission, and what a failure keeps *)

Section ReportRuns.
Import Js Report.

Lemma server_error_is_not_network_error (error : Value) :
  server_error_message error ≠ network_error_message.
Proof.
  destruct (server_error_message_prefix error) as [rest ->]. discriminate.
Qed.

Lemma server_error_text_Got (error : Value) (text : string) :
  server_error_text error = Got text → text = server_error_message error.
Proof.
  unfold server_error_text, server_error_message, ToString.
  destruct (truthy error).
  - destruct (printable error); [|done]. cbn [bind]. by intros [= <-].
  - cbn. by intros [= <-].
Qed.

(** X6.  A submission that nothing interleaves with ends in one of two
    states of the status line, whatever it showed before: the success
    message with exactly the classes status and success, when a response
    with an ok status and a JSON body arrived; otherwise exactly the
    classes status and error, with the network error message or a server
    error message as text. *)
Theorem submission_outcome (f : Fetched) (p : Page) :
  let status := submitStatus (submit f p) in
  (∃ data, f = Responded true (Json data))
  ∧ status = {| textContent := success_message;
                classList := ["status"; "success"] |}
  ∨ (∀ data, f ≠ Responded true (Json data))
    ∧ classList status = ["status"; "error"]
    ∧ (textContent status = network_error_message
       ∨ ∃ error, textContent status = server_error_message error).
Proof.
  destruct f as [|ok [|data]]; cbv zeta.
  - right. split; [done|]. split; [reflexivity|]. by left.
  - right. split; [done|]. split; [reflexivity|]. by left.
  - destruct ok.
    + left. split; [by eexists|reflexivity].
    + right. split; [done|].
      unfold submit, submit_finish, try_block. cbn [negb].
      destruct (get "error" data) as [error|];
        [|split; [reflexivity|]; by left].
      destruct (server_error_text error) as [text|] eqn:Htext.
      * split; [reflexivity|]. right. exists error.
        by apply server_error_text_Got.
      * split; [reflexivity|]. by left.
Qed.

(** X7.  Unless a response with an ok status and a JSON body arrived, the
    listener leaves every control of the form as it finds it when the
    request settles: what the user typed is kept on every failure. *)
Theorem failure_keeps_input (f : Fetched) (p : Page) :
  (∀ data, f ≠ Responded true (Json data)) →
  controls (submit_finish f p) = controls p.
Proof.
  intros Hfail. destruct f as [|ok [|data]]; try reflexivity.
  destruct ok; [by destruct (Hfail data)|].
  unfold submit_finish, try_block. cbn [negb].
  destruct (get "error" data) as [error|]; [|done].
  by destruct (server_error_text error).
Qed.

Lemma failure_keeps_input_witness :
  controls (submit_finish (Responded false (Json (JObj [("error", JStr "bad input")]))) sample)
  = controls sample.
Proof. apply failure_keeps_input. intros data. discriminate. Defined.

(** X8.  When a response with a status that is not ok and a JSON body
    arrives, the status line reads the network error message exactly when
    line 59 throws: the body is null, or its error field is truthy and
    cannot be turned into a string (an object with a member named toString,
    or an array that holds one).  For every other body it reads a server
    error message. *)
Theorem not_ok_reads_network_error_iff_throws (p : Page) (data : JSON) :
  textContent (submitStatus (submit_finish (Responded false (Json data)) p))
  = network_error_message
  ↔ data = JNull
    ∨ ∃ error, get "error" data = Got error
               ∧ truthy error = true ∧ printable error = false.
Proof.
  unfold submit_finish, try_block. cbn [negb]. split.
  - intros Htext. destruct (get "error" data) as [error|] eqn:Hget;
      [|left; by destruct data].
    right. exists error. split; [done|].
    destruct (server_error_text error) as [text|] eqn:Hrun.
    + apply server_error_text_Got in Hrun. subst text.
      cbn [show with_status submitStatus textContent] in Htext.
      by apply server_error_is_not_network_error in Htext.
    + unfold server_error_text, ToString in Hrun.
      destruct (truthy error); [|done].
      by destruct (printable error).
  - intros [->|(error & Hget & Htruthy & Hprint)]; [reflexivity|].
    rewrite Hget. unfold server_error_text, ToString.
    by rewrite Htruthy, Hprint.
Qed.

(** *** What trimming does to the text of a field *)

Lemma get_trimmed_field (p : Page) (k v : string) :
  (k, v) ∈ trimmed_fields p → get k (payload p) = Got (Some (JStr (trim v))).
Proof.
  unfold trimmed_fields. rewrite !elem_of_cons, elem_of_nil.
  intros [[= -> ->]|[[= -> ->]|[[= -> ->]|[]]]]; reflexivity.
Qed.

(** X9.  Of location_name, hazard_type and description, a text that starts
    and ends with a visible ASCII character is sent as it was typed, the
    white space inside it included. *)
Theorem payload_keeps_text_between_visible (p : Page) (k v : string) :
  (k, v) ∈ trimmed_fields p →
  starts_visible v = true →
  starts_visible (String.rev v) = true →
  get k (payload p) = Got (Some (JStr v)).
Proof.
  intros Hfield Hfront Hback. rewrite (get_trimmed_field p k v Hfield).
  by rewrite trim_between_visible.
Qed.

Lemma payload_keeps_text_between_visible_witness :
  get "description" (payload sample) = Got (Some (JStr "deep, near the crossing")).
Proof.
  apply (payload_keeps_text_between_visible sample "description"
           "deep, near the crossing").
  - unfold trimmed_fields. rewrite !elem_of_cons. right. right. by left.
  - reflexivity.
  - reflexivity.
Defined.

(** X10.  Of the same three fields, a text made of nothing but ASCII
    spaces, tabs and line breaks is sent as the empty string; the request
    is sent all the same. *)
Theorem payload_empties_blank_text (p : Page) (k v : string) :
  (k, v) ∈ trimmed_fields p →
  string_forall blank v = true →
  get k (payload p) = Got (Some (JStr ""))
  ∧ ∃ text, body (submit_start p).2 = Some text.
Proof.
  intros Hfield Hblank. rewrite (get_trimmed_field p k v Hfield).
  rewrite trim_blank by done. split; [done|]. by eexists.
Qed.

Lemma payload_empties_blank_text_witness :
  get "hazard_type"
    (payload (mkPage blank_control (filled "   ") blank_control blank_control
                {| checked := true; defaultChecked := true |} blank_control
                {| textContent := ""; classList := [] |}))
  = Got (Some (JStr ""))
  ∧ ∃ text,
      body (submit_start
              (mkPage blank_control (filled "   ") blank_control blank_control
                 {| checked := true; defaultChecked := true |} blank_control
                 {| textContent := ""; classList := [] |})).2
      = Some text.
Proof.
  apply (payload_empties_blank_text _ "hazard_type" "   ").
  - unfold trimmed_fields. rewrite !elem_of_cons. right. by left.
  - reflexivity.
Defined.

End ReportRuns.

(** ** The recent hazards fetcher: when a request is sent, what it asks
    for, and what the results region can end up holding *)

Section RecentRuns.
Import Js Recent.

Variable string_gt_zero : string → bool.

(** X11.  A location made of nothing but ASCII spaces, tabs and line breaks
    (the empty one too) gets the prompt and no request. *)
Theorem blank_location_prompts (p : Page) :
  string_forall blank (check_location p) = true →
  hazardResults (submit_start p).1 = [TextNode prompt_message]
  ∧ (submit_start p).2 = None.
Proof.
  intros Hblank. unfold submit_start.
  cbn [set_textContent with_results check_location].
  by rewrite (trim_blank _ Hblank).
Qed.

Lemma blank_location_prompts_witness :
  hazardResults (submit_start (asking (" " ++ byte 9 ++ " " ++ byte 10))).1
  = [TextNode prompt_message]
  ∧ (submit_start (asking (" " ++ byte 9 ++ " " ++ byte 10))).2 = None.
Proof. apply blank_location_prompts. reflexivity. Defined.

(** X12.  A location with at least one visible ASCII character and no
    lone surrogate always leads to a request: a GET of
    /api/hazards?location= followed by the percent-encoded trimmed
    location, while the results region shows the loading text. *)
Theorem visible_location_is_requested (p : Page) :
  string_exists visible (check_location p) = true →
  lone_surrogate (check_location p) = false →
  hazardResults (submit_start p).1 = [TextNode loading_message]
  ∧ (submit_start p).2
    = Some {| url := "/api/hazards?location="
                     ++ percent_encode (trim (check_location p));
              method := "GET"; headers := []; body := None |}.
Proof.
  intros Hvisible%trim_keeps_visible Hsound%lone_surrogate_trim.
  unfold submit_start, encodeURIComponent.
  cbn [set_textContent with_results check_location].
  rewrite Hsound.
  destruct (trim (check_location p)) as [|a rest]; [done|].
  split; reflexivity.
Qed.

Lemma visible_location_is_requested_witness :
  hazardResults (submit_start (asking " Elm St ")).1 = [TextNode loading_message]
  ∧ (submit_start (asking " Elm St ")).2
    = Some {| url := "/api/hazards?location=Elm%20St";
              method := "GET"; headers := []; body := None |}.
Proof.
  apply (visible_location_is_requested (asking " Elm St ")); reflexivity.
Defined.

Lemma submit_start_request (p : Page) (r : Request) :
  (submit_start p).2 = Some r →
  url r = "/api/hazards?location=" ++ percent_encode (trim (check_location p)).
Proof.
  unfold submit_start, encodeURIComponent.
  cbn [set_textContent with_results check_location].
  destruct (String.eqb _ _); [done|].
  destruct (lone_surrogate _); [done|]. by intros [= <-].
Qed.

(** X13.  Whatever the location, the URL of the request is the fixed
    prefix followed only by letters, digits, the marks - _ . ! ~ * ' ( )
    and the percent sign: the text typed cannot add a parameter, a
    fragment or a path to it. *)
Theorem request_url_is_encoded (p : Page) (r : Request) :
  (submit_start p).2 = Some r →
  ∃ query, url r = "/api/hazards?location=" ++ query
           ∧ string_forall uri_char query = true.
Proof.
  intros Hr%submit_start_request. eexists. split; [exact Hr|].
  apply percent_encode_uri_chars.
Qed.

Lemma request_url_is_encoded_witness :
  ∃ query,
    url {| url := "/api/hazards?location=a%26b%3D1%23%2F%20c";
           method := "GET"; headers := []; body := None |}
    = "/api/hazards?location=" ++ query
    ∧ string_forall uri_char query = true.
Proof. apply (request_url_is_encoded (asking "a&b=1#/ c")). reflexivity. Defined.

(** X14.  Two submissions that send a request to the same URL have the same
    trimmed location: the encoding loses nothing. *)
Theorem same_url_same_location (p q : Page) (r r' : Request) :
  (submit_start p).2 = Some r →
  (submit_start q).2 = Some r' →
  url r = url r' →
  trim (check_location p) = trim (check_location q).
Proof.
  intros Hr%submit_start_request Hr'%submit_start_request Hsame.
  rewrite Hr, Hr' in Hsame.
  apply percent_encode_inj. by eapply (inj (String.app _)).
Qed.

Lemma same_url_same_location_witness :
  trim (check_location (asking " Elm St")) = trim (check_location (asking "Elm St  ")).
Proof.
  eapply (same_url_same_location (asking " Elm St") (asking "Elm St  "));
    reflexivity.
Defined.

(** *** What the results region holds once the request has settled *)

Lemma length_render_each (hs : list JSON) (lis : list LI) :
  render_each hs = Got lis → length lis = length hs.
Proof.
  revert lis. induction hs as [|h hs IH]; intros lis; cbn [render_each].
  - by intros [= <-].
  - destruct (render h) as [li|]; [|done]. cbn [bind].
    destruct (render_each hs) as [lis'|]; [|done]. cbn [bind].
    intros [= <-]. simpl. f_equal. by apply IH.
Qed.

Lemma render_null : render JNull = TypeError.
Proof. reflexivity. Qed.

Lemma render_each_null (hs : list JSON) :
  JNull ∈ hs → render_each hs = TypeError.
Proof.
  induction hs as [|h hs IH]; intros Hin.
  - by apply elem_of_nil in Hin.
  - cbn [render_each]. apply elem_of_cons in Hin as [<-|Hin].
    + by rewrite render_null.
    + destruct (render h); [|done]. cbn [bind]. by rewrite IH.
Qed.

(** X15.  Once the request has settled, the results region holds exactly
    one child, whatever it held before: the fetch error text, the
    no-hazards text, or one list of class results-list that has at least
    one item.  The loading text never stays, and an empty list is never
    shown. *)
Theorem results_after_settling (f : Fetched) (p : Page) :
  let results := hazardResults (submit_finish string_gt_zero f p) in
  results = [TextNode fetch_error_message]
  ∨ results = [TextNode no_hazards_message]
  ∨ ∃ lis, lis ≠ []
           ∧ results = [ListNode {| className := "results-list"; items := lis |}].
Proof.
  cbv zeta. unfold submit_finish, try_block.
  destruct f as [|ok [|data]]; [by left..|].
  destruct (get "hazards" data) as [hazards|]; [|by left].
  destruct (if truthy hazards then length_gt_zero string_gt_zero hazards
            else Got false) as [[|]|] eqn:Hshow;
    [|by right; left|by left].
  destruct hazards as [[| | | |hs|]|]; try by left.
  destruct (render_each hs) as [lis|] eqn:Hrun; [|by left].
  right; right. exists lis. split; [|reflexivity].
  apply length_render_each in Hrun. intros ->.
  destruct hs; [|done]. cbn in Hshow. done.
Qed.

(** X16.  What the results region held when the request settles plays no
    part in what it holds afterwards: earlier results never linger. *)
Theorem earlier_results_are_dropped (f : Fetched) (nodes : list Node) (p : Page) :
  submit_finish string_gt_zero f (with_results nodes p)
  = submit_finish string_gt_zero f p.
Proof.
  unfold submit_finish, try_block.
  destruct f as [|ok [|data]]; [reflexivity..|].
  destruct (get "hazards" data) as [hazards|]; [|reflexivity].
  destruct (if truthy hazards then length_gt_zero string_gt_zero hazards
            else Got false) as [[|]|]; [|reflexivity..].
  destruct hazards as [[| | | |hs|]|]; reflexivity.
Qed.

(** The listener never looks at the status of the response: a
    response with an error status is handled as one with an ok status and
    the same body. *)
Remark status_is_ignored (ok ok' : bool) (content : Body) (p : Page) :
  submit_finish string_gt_zero (Responded ok content) p
  = submit_finish string_gt_zero (Responded ok' content) p.
Proof. reflexivity. Qed.

(** X17.  One record that is null anywhere in the hazards array makes the
    listener drop the whole list: the region shows the fetch error text
    and none of the other records. *)
Theorem null_record_drops_the_list (p : Page) (ok : bool) (data : JSON)
    (hs : list JSON) :
  get "hazards" data = Got (Some (JArr hs)) →
  JNull ∈ hs →
  hazardResults (submit_finish string_gt_zero (Responded ok (Json data)) p)
  = [TextNode fetch_error_message].
Proof.
  intros Hget Hnull. unfold submit_finish, try_block. rewrite Hget.
  rewrite (render_each_null hs Hnull).
  cbn [truthy length_gt_zero].
  rewrite bool_decide_eq_false_2; [reflexivity|].
  intros ->. by apply elem_of_nil in Hnull.
Qed.

(** X18.  When hazards is a string that is not empty, the listener takes it
    for a list with something in it, fails to walk it, and shows the fetch
    error text. *)
Theorem string_hazards_is_fetch_error (p : Page) (ok : bool) (data : JSON)
    (s : string) :
  get "hazards" data = Got (Some (JStr s)) →
  s ≠ "" →
  hazardResults (submit_finish string_gt_zero (Responded ok (Json data)) p)
  = [TextNode fetch_error_message].
Proof.
  intros Hget Hs. unfold submit_finish, try_block. rewrite Hget.
  cbn [truthy length_gt_zero]. destruct s; [done|reflexivity].
Qed.

(** X19.  When hazards is a boolean or a number, the region shows the
    no-hazards text: such a value has no length, so it counts as an empty
    list. *)
Theorem scalar_hazards_is_no_hazards (p : Page) (ok : bool) (data hazards : JSON) :
  get "hazards" data = Got (Some hazards) →
  (∃ b, hazards = JBool b) ∨ (∃ repr, hazards = JNum repr) →
  hazardResults (submit_finish string_gt_zero (Responded ok (Json data)) p)
  = [TextNode no_hazards_message].
Proof.
  intros Hget Hscalar. unfold submit_finish, try_block. rewrite Hget.
  destruct Hscalar as [[b ->]|[repr ->]]; cbn [length_gt_zero];
    by destruct (truthy _).
Qed.

(** X20.  A location whose trimmed text has a surrogate that stands alone
    sends no request: encoding it throws inside the try block, and the
    results region shows the fetch error text. *)
Theorem lone_surrogate_location_is_fetch_error (p : Page) :
  lone_surrogate (trim (check_location p)) = true →
  hazardResults (submit_start p).1 = [TextNode fetch_error_message]
  ∧ (submit_start p).2 = None.
Proof.
  intros Hlone. unfold submit_start, encodeURIComponent.
  cbn [set_textContent with_results check_location].
  rewrite Hlone.
  destruct (trim (check_location p)) as [|a rest]; [done|].
  split; reflexivity.
Qed.

Lemma lone_surrogate_location_is_fetch_error_witness :
  hazardResults
    (submit_start (asking ("Elm" ++ byte 237 ++ byte 160 ++ byte 128))).1
  = [TextNode fetch_error_message]
  ∧ (submit_start (asking ("Elm" ++ byte 237 ++ byte 160 ++ byte 128))).2 = None.
Proof. apply lone_surrogate_location_is_fetch_error. reflexivity. Defined.

Lemma render_not_renderable (h : JSON) :
  renderable h = false → render h = TypeError.
Proof.
  intros Hh.
  assert (Hcases : h = JNull ∨ h ≠ JNull) by (destruct h; auto).
  destruct Hcases as [->|Hnull]; [reflexivity|].
  assert (Hall :
    forallb (λ k, printable (field k h))
      ["day"; "timestamp"; "location_name"; "hazard_type"; "accessibility";
       "user_type"]
    && (negb (truthy (field "description" h))
        || printable (field "description" h)) = false)
    by (destruct h; done).
  unfold render. rewrite !(get_field _ h Hnull). cbn [bind].
  unfold ToString. cbn [forallb] in Hall.
  destruct (printable (field "day" h)); [|reflexivity].
  destruct (printable (field "timestamp" h)); [|reflexivity].
  destruct (printable (field "location_name" h)); [|reflexivity].
  destruct (printable (field "hazard_type" h)); [|reflexivity].
  destruct (printable (field "accessibility" h)); [|reflexivity].
  destruct (printable (field "user_type" h)); [|reflexivity].
  cbn [bind andb] in *.
  destruct (truthy (field "description" h)); [|done].
  by destruct (printable (field "description" h)).
Qed.

Lemma render_each_not_renderable (hs : list JSON) (h : JSON) :
  h ∈ hs → renderable h = false → render_each hs = TypeError.
Proof.
  intros Hin Hh. induction hs as [|h' hs IH].
  - by apply elem_of_nil in Hin.
  - cbn [render_each]. apply elem_of_cons in Hin as [<-|Hin].
    + by rewrite render_not_renderable.
    + destruct (render h'); [|done]. cbn [bind]. by rewrite IH.
Qed.

(** X21.  One record of the hazards array that cannot be printed (it is
    null, or one of the fields that the item prints cannot be turned into
    a string) makes the listener drop the whole list: the region shows
    the fetch error text and none of the other records. *)
Theorem unprintable_record_drops_the_list (p : Page) (ok : bool) (data : JSON)
    (hs : list JSON) (h : JSON) :
  get "hazards" data = Got (Some (JArr hs)) →
  h ∈ hs →
  renderable h = false →
  hazardResults (submit_finish string_gt_zero (Responded ok (Json data)) p)
  = [TextNode fetch_error_message].
Proof.
  intros Hget Hin Hh. unfold submit_finish, try_block. rewrite Hget.
  rewrite (render_each_not_renderable hs h Hin Hh).
  cbn [truthy length_gt_zero].
  rewrite bool_decide_eq_false_2; [reflexivity|].
  intros ->. by apply elem_of_nil in Hin.
Qed.

End RecentRuns.

Lemma null_record_drops_the_list_witness :
  Recent.hazardResults (Recent.submit_finish (λ _, false)
    (Js.Responded true (Js.Json (Js.JObj [("hazards", Js.JArr [Recent.elm_record; Js.JNull; Recent.elm_record])])))
    (Recent.asking "Elm St"))
  = [Recent.TextNode Recent.fetch_error_message].
Proof.
  apply (null_record_drops_the_list (λ _, false) (Recent.asking "Elm St") true
           (Js.JObj [("hazards", Js.JArr [Recent.elm_record; Js.JNull; Recent.elm_record])])
           [Recent.elm_record; Js.JNull; Recent.elm_record]).
  - reflexivity.
  - rewrite !elem_of_cons. right. by left.
Defined.

Lemma string_hazards_is_fetch_error_witness :
  Recent.hazardResults (Recent.submit_finish (λ _, false)
    (Js.Responded true (Js.Json (Js.JObj [("hazards", Js.JStr "none")]))) (Recent.asking "Elm St"))
  = [Recent.TextNode Recent.fetch_error_message].
Proof.
  apply (string_hazards_is_fetch_error (λ _, false) (Recent.asking "Elm St") true
           (Js.JObj [("hazards", Js.JStr "none")]) "none"); [reflexivity|discriminate].
Defined.

Lemma scalar_hazards_is_no_hazards_witness :
  Recent.hazardResults (Recent.submit_finish (λ _, false)
    (Js.Responded true (Js.Json (Js.JObj [("hazards", Js.JNum "3")]))) (Recent.asking "Elm St"))
  = [Recent.TextNode Recent.no_hazards_message].
Proof.
  apply (scalar_hazards_is_no_hazards (λ _, false) (Recent.asking "Elm St") true
           (Js.JObj [("hazards", Js.JNum "3")]) (Js.JNum "3")); [reflexivity|].
  right. by eexists.
Defined.

Lemma unprintable_record_drops_the_list_witness :
  Recent.hazardResults (Recent.submit_finish (λ _, false)
    (Js.Responded true (Js.Json (Js.JObj [("hazards",
       Js.JArr [Recent.elm_record;
                Js.JObj [("day", Js.JObj [("toString", Js.JNum "1")])]])])))
    (Recent.asking "Elm St"))
  = [Recent.TextNode Recent.fetch_error_message].
Proof.
  apply (unprintable_record_drops_the_list (λ _, false) (Recent.asking "Elm St") true
           (Js.JObj [("hazards",
              Js.JArr [Recent.elm_record;
                       Js.JObj [("day", Js.JObj [("toString", Js.JNum "1")])]])])
           [Recent.elm_record;
            Js.JObj [("day", Js.JObj [("toString", Js.JNum "1")])]]
           (Js.JObj [("day", Js.JObj [("toString", Js.JNum "1")])])).
  - reflexivity.
  - rewrite !elem_of_cons. right. by left.
  - reflexivity.
Defined.
